(** * dds-mlr-bridge: data cleaning and scoring, embedded from the Python sources

    The development follows [src/defs.py], [src/exceptions.py],
    [src/data_cleaning.py] and [src/dds.py].  Python [str] is [string],
    [int] is [Z] (seat indexes and list positions are [nat]), the two
    floating point constants of the scoring code are rationals, [set] is
    [gset], [dict] is [gmap] or an association list where the iteration
    order is used, an exception is a constructor of [exn] carried by the
    [result] monad, and the list objects that [validate_play] receives by
    reference live in an explicit object store. *)

From Stdlib Require Import ZArith QArith Qround Ascii.
From stdpp Require Import base option list gmap strings.

Set Default Proof Using "Type".
#[local] Set Warnings "-clear-no-such-hyp".

Local Open Scope Z_scope.

(* ================================================================== *)
(** * Exceptions ([src/exceptions.py]) and the result monad *)
(* ================================================================== *)

(** Every exception class the sources raise, plus the Python built-ins
    that their indexing, look-ups and conversions can raise. *)
Inductive exn : Type :=
  (* BoardError *)
  | MissingDealError | UnbalancedDealError | CardError | MissingNamesError
  | ClaimError | ContractContradictionError | DeclarerContradictionError
  | LeadContradictionError | PassContradictionError
  (* AuctionError *)
  | MissingAuctionError | PassError | ContractBidError | DoubleBidError
  | RedoubleBidError
  (* PlaySequenceError *)
  | MissingPlaySequenceInfoError | FirstCardIsDashError | CardAfterDashError
  | UnbalancedPlaySequenceError | MultipleClaimError | PlayError | RenegeError
  (* internal signal, derives from Exception directly *)
  | ContradictionError
  (* built-ins; the last two are what the object store answers to a
     reference of the wrong type and to a dangling one *)
  | ValueError | IndexError | KeyError | TypeError | SystemError.

Global Instance exn_eq_dec : EqDecision exn.
Proof. solve_decision. Defined.

(** [isinstance(e, BoardError)] and its two siblings. *)
Definition is_BoardError (e : exn) : bool :=
  match e with
  | MissingDealError | UnbalancedDealError | CardError | MissingNamesError
  | ClaimError | ContractContradictionError | DeclarerContradictionError
  | LeadContradictionError | PassContradictionError => true
  | _ => false
  end.

Definition is_AuctionError (e : exn) : bool :=
  match e with
  | MissingAuctionError | PassError | ContractBidError | DoubleBidError
  | RedoubleBidError => true
  | _ => false
  end.

Definition is_PlaySequenceError (e : exn) : bool :=
  match e with
  | MissingPlaySequenceInfoError | FirstCardIsDashError | CardAfterDashError
  | UnbalancedPlaySequenceError | MultipleClaimError | PlayError
  | RenegeError => true
  | _ => false
  end.

(** [ExceptionWithDescripton.__str__]: the class docstring. *)
Definition exn_str (e : exn) : string :=
  match e with
  | MissingDealError => "Missing deal."
  | UnbalancedDealError => "Deal had a hand that did not have 13 cards."
  | CardError => "A player had an invalid card in the deal, or a card appeared twice."
  | MissingNamesError => "All names are missing."
  | ClaimError => "The declarer claimed fewer tricks than they had already won, or more tricks than there were remaining."
  | ContractContradictionError => "Contract differs from the contract deducible from the auction."
  | DeclarerContradictionError => "Declarer differs from the declarer deducible from the auction."
  | LeadContradictionError => "Lead differs from the lead deducible from the declarer."
  | PassContradictionError => "Contract is pass, play sequence is non-empty."
  | MissingAuctionError => "Missing auction."
  | PassError => "The contract was passed out in the middle of the auction, or the auction did not end with three passes."
  | ContractBidError => "Contract bid was made in a non-increasing fashion."
  | DoubleBidError => "A double bid was made where the contract was already doubled or redoubled, the bid was made by the side who bid the last contract, or there was no contract bid made yet."
  | RedoubleBidError => "A redouble bid was made where the contract was not doubled or already redoubled, the bid was made by the side who did not bid the last contract, or there was no contract bid made yet."
  | MissingPlaySequenceInfoError => "Missing play_sequence, lead, or trump."
  | FirstCardIsDashError => "First card played to a trick is a dash."
  | CardAfterDashError => "A card is played to a trick after a dash."
  | UnbalancedPlaySequenceError => "The number of legal plays, augmented with dashes if necessary, is not divisible by 4."
  | MultipleClaimError => "Dashes appeared in more than one trick."
  | PlayError => "A card is played twice or the player never had it."
  | RenegeError => "A player reneged."
  | ContradictionError | ValueError | IndexError | KeyError | TypeError
  | SystemError => ""
  end.

Inductive result (A : Type) : Type :=
  | Ok (a : A)
  | Raise (e : exn).
Global Arguments Ok {A} a.
Global Arguments Raise {A} e.

Global Instance result_eq_dec {A} `{EqDecision A} : EqDecision (result A).
Proof. solve_decision. Defined.

Global Instance result_ret : MRet result := @Ok.
Global Instance result_bind : MBind result := λ A B f m,
  match m with Ok a => f a | Raise e => Raise e end.
Global Instance result_fmap : FMap result := λ A B f m,
  match m with Ok a => Ok (f a) | Raise e => Raise e end.

(** [try: m  except C: h] for a class test [C]. *)
Definition try_except {A} (m : result A) (C : exn → bool) (h : exn → result A)
  : result A :=
  match m with
  | Ok a => Ok a
  | Raise e => if C e then h e else Raise e
  end.

Definition is_exn (e0 : exn) (e : exn) : bool := bool_decide (e = e0).

Definition of_option {A} (o : option A) (e : exn) : result A :=
  match o with Some a => Ok a | None => Raise e end.

(* ================================================================== *)
(** * Python string and list primitives used by the sources *)
(* ================================================================== *)

Module Py.

Definition len (s : string) : Z := Z.of_nat (String.length s).

(** [bool(s)]: a string is truthy when it is not empty. *)
Definition truthy (s : string) : bool :=
  match s with EmptyString => false | String _ _ => true end.

(** [a or b] on strings. *)
Definition or_else (a b : string) : string := if truthy a then a else b.

Definition str_eqb (a b : string) : bool := bool_decide (a = b).

(** [x in l] for a list of strings. *)
Definition mem (x : string) (l : list string) : bool := bool_decide (x ∈ l).

(** [s[i]] for [0 <= i]: a one-character string, or [IndexError]. *)
Definition item (s : string) (i : nat) : result string :=
  match String.get i s with
  | Some c => Ok (String c EmptyString)
  | None => Raise IndexError
  end.

(** [s[i:]] for [0 <= i]. *)
Fixpoint drop (i : nat) (s : string) : string :=
  match i, s with
  | O, _ => s
  | S i', EmptyString => EmptyString
  | S i', String _ s' => drop i' s'
  end.

(** [s[:i]] for [0 <= i]. *)
Fixpoint take (i : nat) (s : string) : string :=
  match i, s with
  | O, _ => EmptyString
  | S i', EmptyString => EmptyString
  | S i', String c s' => String c (take i' s')
  end.

(** [s[i:j]] for [0 <= i <= j]. *)
Definition slice (i j : nat) (s : string) : string := take (j - i) (drop i s).

(** [s[-k:]] and [s[:-k]] for [0 < k]: Python clamps at the start. *)
Definition last_n (k : nat) (s : string) : string :=
  drop (String.length s - k) s.
Definition but_last_n (k : nat) (s : string) : string :=
  take (String.length s - k) s.

(** [s.split(sep)] for a one-character separator: never empty. *)
Fixpoint split (sep : ascii) (s : string) : list string :=
  match s with
  | EmptyString => [EmptyString]
  | String c s' =>
      if bool_decide (c = sep) then EmptyString :: split sep s'
      else match split sep s' with
           | w :: ws => String c w :: ws
           | [] => [String c EmptyString]
           end
  end.

(** [sep.join(l)]. *)
Definition join (sep : string) (l : list string) : string :=
  String.concat sep l.

(** [s.startswith(p)]. *)
Fixpoint startswith (p s : string) : bool :=
  match p, s with
  | EmptyString, _ => true
  | String a p', String b s' => bool_decide (a = b) && startswith p' s'
  | String _ _, EmptyString => false
  end.

(** Lowest index [>= start] at which [sub] occurs in [s] (as a [nat]). *)
Fixpoint find_from (sub : string) (start : nat) (s : string) : option nat :=
  match start, s with
  | O, EmptyString => if startswith sub s then Some O else None
  | O, String _ s' =>
      if startswith sub s then Some O else S <$> find_from sub O s'
  | S n, EmptyString => None
  | S n, String _ s' => S <$> find_from sub n s'
  end.

(** [s.find(sub, start)]: the index, or [-1]. *)
Definition find (sub : string) (start : nat) (s : string) : Z :=
  match find_from sub start s with
  | Some i => Z.of_nat i
  | None => -1
  end.

(** [s.replace(old, new)] for a non-empty [old]: occurrences are taken
    left to right and do not overlap.  The fuel is the length of [s]. *)
Fixpoint replace_fuel (fuel : nat) (old new s : string) : string :=
  match fuel with
  | O => s
  | S fuel' =>
      match s with
      | EmptyString => EmptyString
      | String c s' =>
          if startswith old s
          then String.app new (replace_fuel fuel' old new (drop (String.length old) s))
          else String c (replace_fuel fuel' old new s')
      end
  end.
Definition replace (old new s : string) : string :=
  replace_fuel (String.length s) old new s.

(** [c.upper()] on the ASCII letters. *)
Definition upper_char (c : ascii) : ascii :=
  let n := nat_of_ascii c in
  if (97 <=? n)%nat && (n <=? 122)%nat then ascii_of_nat (n - 32) else c.
Fixpoint upper (s : string) : string :=
  match s with
  | EmptyString => EmptyString
  | String c s' => String (upper_char c) (upper s')
  end.

Definition char_in (c : ascii) (chars : string) : bool :=
  bool_decide (c ∈ String.list_ascii_of_string chars).

(** [s.lstrip(chars)]: drops leading characters that belong to [chars]. *)
Fixpoint lstrip (chars : string) (s : string) : string :=
  match s with
  | EmptyString => EmptyString
  | String c s' => if char_in c chars then lstrip chars s' else s
  end.

(** [s.rstrip(chars)]. *)
Fixpoint rstrip (chars : string) (s : string) : string :=
  match s with
  | EmptyString => EmptyString
  | String c s' =>
      match rstrip chars s' with
      | EmptyString => if char_in c chars then EmptyString else String c EmptyString
      | r => String c r
      end
  end.

(** [l.remove(x)]: deletes the first occurrence, [None] stands for the
    [ValueError] raised when there is none. *)
Fixpoint list_remove {A} `{EqDecision A} (x : A) (l : list A) : option (list A) :=
  match l with
  | [] => None
  | y :: l' => if decide (x = y) then Some l' else (y ::.) <$> list_remove x l'
  end.

(** [l.index(x)]. *)
Fixpoint list_index {A} `{EqDecision A} (x : A) (l : list A) : option nat :=
  match l with
  | [] => None
  | y :: l' => if decide (x = y) then Some O else S <$> list_index x l'
  end.

(** Iterating over a string yields its characters as one-character
    strings. *)
Fixpoint chars (s : string) : list string :=
  match s with
  | EmptyString => []
  | String c s' => String c EmptyString :: chars s'
  end.

(** [enumerate(l)]. *)
Definition enumerate {A} (l : list A) : list (nat * A) :=
  zip (seq 0 (length l)) l.

(** [l[i]] for an integer [i]: a negative index counts from the end. *)
Definition list_item {A} (l : list A) (i : Z) : result A :=
  let n := Z.of_nat (length l) in
  if (0 <=? i) && (i <? n) then of_option (l !! Z.to_nat i) IndexError
  else if (- n <=? i) && (i <? 0) then of_option (l !! Z.to_nat (n + i)) IndexError
  else Raise IndexError.

(** [int(c)] for a one-character string. *)
Definition int_of_char (s : string) : result Z :=
  match s with
  | String c EmptyString =>
      match Ascii.is_nat c with
      | Some n => Ok (Z.of_nat n)
      | None => Raise ValueError
      end
  | _ => Raise ValueError
  end.

(** The characters that [int] skips around a literal, among the code
    points below 256: tab to carriage return, the space, and the two
    blanks above 127 (NEL and the no-break space).  The separators 28 to
    31 are not skipped. *)
Definition is_space (c : ascii) : bool :=
  let n := nat_of_ascii c in
  ((9 <=? n)%nat && (n <=? 13)%nat) || (n =? 32)%nat
  || (n =? 133)%nat || (n =? 160)%nat.

Definition is_digit (c : ascii) : bool :=
  let n := nat_of_ascii c in (48 <=? n)%nat && (n <=? 57)%nat.

Definition digit_value (c : ascii) : Z := Z.of_nat (nat_of_ascii c) - 48.

Fixpoint strip_left (s : string) : string :=
  match s with
  | EmptyString => EmptyString
  | String c s' => if is_space c then strip_left s' else s
  end.

Fixpoint strip_right (s : string) : string :=
  match s with
  | EmptyString => EmptyString
  | String c s' =>
      match strip_right s' with
      | EmptyString => if is_space c then EmptyString else String c EmptyString
      | r => String c r
      end
  end.

(** The digits of a decimal literal: a single underscore may stand between
    two digits. *)
Fixpoint parse_digits (acc : Z) (after_digit : bool) (s : string) : option Z :=
  match s with
  | EmptyString => if after_digit then Some acc else None
  | String c s' =>
      if is_digit c then parse_digits (10 * acc + digit_value c) true s'
      else if bool_decide (c = "_"%char) && after_digit
      then parse_digits acc false s'
      else None
  end.

(** [sys.get_int_max_str_digits()], as CPython sets it by default. *)
Definition MAX_STR_DIGITS : nat := 4300.

Definition digit_count (s : string) : nat :=
  length (filter (λ c, is_digit c = true) (String.list_ascii_of_string s)).

(** [int(s)] for a string [s]: white space around, an optional sign,
    decimal digits, no more of them than [MAX_STR_DIGITS]; [None] stands
    for [ValueError]. *)
Definition int_of_str (s : string) : option Z :=
  let literal := strip_right (strip_left s) in
  if (MAX_STR_DIGITS <? digit_count literal)%nat then None
  else match literal with
       | String "+" digits => parse_digits 0 false digits
       | String "-" digits => Z.opp <$> parse_digits 0 false digits
       | digits => parse_digits 0 false digits
       end.

(** [int(x)] for a float [x]: truncation towards zero. *)
Definition int_of_float (x : Q) : Z := Z.quot (Qnum x) (Zpos (Qden x)).

(** [float(n) // d]: floor division, the result is an integral float.
    The quotient is computed on rationals, which is what the floats give
    as long as [n] is below 2^53 in absolute value; a larger [n] is
    rounded when it becomes a float, and from 2^1024 on the conversion
    raises [OverflowError].  The scoring code divides a number of
    undertricks, which is at most 15 for a number of tricks from 0 on. *)
Definition floordiv_float (n : Z) (d : Q) : Q := inject_Z (Qfloor (inject_Z n / d)).

End Py.

(* ================================================================== *)
(** * Shared constants ([src/defs.py]) *)
(* ================================================================== *)

Definition ORDER : list string := ["N"; "E"; "S"; "W"].

Definition RANKS : list string :=
  ["A"; "K"; "Q"; "J"; "T"; "9"; "8"; "7"; "6"; "5"; "4"; "3"; "2"].

Definition SUITS : list string := ["S"; "H"; "D"; "C"; "N"].

(** [str(level)] for [level] in [range(1,8)]. *)
Definition LEVELS : list string := ["1"; "2"; "3"; "4"; "5"; "6"; "7"].

Definition ORDERED_CONTRACT_BIDS : list string :=
  level ← LEVELS; trump ← ["C"; "D"; "H"; "S"; "N"]; [level +:+ trump].

(* ================================================================== *)
(** * Scoring engine ([src/dds.py], [compute_score] and its helpers) *)
(* ================================================================== *)

Module Score.

(** [compute_undertrick_points(undertricks, double, declarer_vulnerable, year)].
    [year and year <= 1987] is the pre-1988 branch; [undertricks // 1.5]
    is a float floor division and [int] brings it back. *)
Definition compute_undertrick_points
    (undertricks : Z) (double : string) (declarer_vulnerable : bool) (year : Z) : Z :=
  let multiplier := if Py.str_eqb double "R" then 2 else 1 in
  if negb declarer_vulnerable then
    if negb (Py.truthy double) then (-50) * undertricks
    else if negb (year =? 0) && (year <=? 1987) then
      (-100 * multiplier) - (200 * multiplier) * (undertricks - 1)
    else
      (-100 * multiplier)
      - (200 * multiplier)
        * Z.min 2 (Py.int_of_float (Py.floordiv_float undertricks 1.5))
      - (300 * multiplier) * Z.max (undertricks - 3) 0
  else
    if negb (Py.truthy double) then (-100) * undertricks
    else (-200 * multiplier) - (300 * multiplier) * (undertricks - 1).

(** [compute_contract_points(level, trump, double)]. *)
Definition compute_contract_points (level : Z) (trump double : string) : Z :=
  let multiplier := 1 in
  let multiplier := if Py.str_eqb double "X" then 2 else multiplier in
  let multiplier := if Py.str_eqb double "R" then 4 else multiplier in
  if Py.mem trump ["C"; "D"] then (20 * level) * multiplier
  else if Py.mem trump ["S"; "H"] then (30 * level) * multiplier
  else (30 * level) * multiplier + 10 * multiplier.

(** [compute_bonus_points(level, will_make, contract_points, double,
    declarer_vulnerable)]; [multiplier] is the float 1 or 1.5. *)
Definition compute_bonus_points
    (level will_make contract_points : Z) (double : string)
    (declarer_vulnerable : bool) : Z :=
  let bonus := 0 in
  let multiplier : Q := if declarer_vulnerable then 1.5%Q else 1%Q in
  let bonus :=
    if negb (contract_points =? 0) && (contract_points <? 100)
    then bonus + 50 else bonus in
  let bonus :=
    if 100 <=? contract_points
    then (if negb declarer_vulnerable then bonus + 300 else bonus + 500)
    else bonus in
  let bonus :=
    if (level =? 6) && (12 <=? will_make)
    then bonus + Py.int_of_float (500 * multiplier) else bonus in
  let bonus :=
    if (level =? 7) && (will_make =? 13)
    then bonus + Py.int_of_float (1000 * multiplier) else bonus in
  let bonus :=
    if negb (contract_points =? 0) && Py.str_eqb double "X"
    then bonus + 50 else bonus in
  let bonus :=
    if negb (contract_points =? 0) && Py.str_eqb double "R"
    then bonus + 100 else bonus in
  bonus.

(** [compute_overtrick_points(overtricks, trump, double, declarer_vulnerable)].
    With no double and a trump outside the five denominations the Python
    code falls through to the doubled formula; so does this. *)
Definition compute_overtrick_points
    (overtricks : Z) (trump double : string) (declarer_vulnerable : bool) : Z :=
  let doubled_formula :=
    let multiplier := 1 in
    let multiplier := if declarer_vulnerable then 2 else multiplier in
    let multiplier := if Py.str_eqb double "R" then multiplier * 2 else multiplier in
    overtricks * 100 * multiplier in
  if negb (Py.truthy double) then
    if Py.mem trump ["C"; "D"] then overtricks * 20
    else if Py.mem trump ["S"; "H"; "N"] then overtricks * 30
    else doubled_formula
  else doubled_formula.

(** [compute_score(contract, will_make, declarer_vulnerable, year)].
    [contract[0]] and [contract[1]] can raise [IndexError], [int] can
    raise [ValueError]; the [IndexError] of [contract[2]] is caught. *)
Definition compute_score
    (contract : string) (will_make : Z) (declarer_vulnerable : bool) (year : Z)
  : result Z :=
  c0 ← Py.item contract 0;
  level ← Py.int_of_char c0;
  trump ← Py.item contract 1;
  double ← try_except (Py.item contract 2) (is_exn IndexError) (λ _, Ok "");
  if will_make <? level + 6 then
    Ok (compute_undertrick_points ((level + 6) - will_make) double
          declarer_vulnerable year)
  else
    let score := compute_contract_points level trump double in
    let score := score
      + compute_bonus_points level will_make score double declarer_vulnerable in
    let score := score
      + compute_overtrick_points (will_make - (level + 6)) trump double
          declarer_vulnerable in
    Ok score.

(** A contract as [clean_board] stores it: level, denomination and an
    optional [X] or [R]. *)
Definition valid_contract (contract : string) : bool :=
  bool_decide (contract ∈
    (bid ← ORDERED_CONTRACT_BIDS; double ← [""; "X"; "R"]; [bid +:+ double])).

(** The level named by a contract string, 0 when it has none. *)
Definition contract_level (contract : string) : Z :=
  match Py.item contract 0 ≫= Py.int_of_char with
  | Ok l => l
  | Raise _ => 0
  end.

End Score.

(* ================================================================== *)
(** * Vulnerability ([src/data_cleaning.py], [get_vulnerable_players]) *)
(* ================================================================== *)

(** [get_vulnerable_players(vulnerable)].  The [for] statement binds its
    targets [(vulnerable, replacement)] to each item of the dictionary in
    insertion order, so the loop variable is the parameter itself: each
    iteration first overwrites [vulnerable] with the key and then assigns
    [vulnerable.replace(vulnerable, replacement)] to it. *)
Definition RECOGNIZABLE_VULNERABILITY : list (string * string) :=
  [("NZ", "NS"); ("All]", "All")].

Definition get_vulnerable_players (vulnerable : string) : gset string :=
  let vulnerable :=
    foldl (λ vulnerable '(key, replacement),
             let vulnerable := key in
             Py.replace vulnerable replacement vulnerable)
          vulnerable RECOGNIZABLE_VULNERABILITY in
  let vulnerable_players : gset string := ∅ in
  if Py.str_eqb vulnerable "NS" then {["N"; "S"]}
  else if Py.str_eqb vulnerable "EW" then {["E"; "W"]}
  else if Py.str_eqb vulnerable "All" then {["N"; "E"; "S"; "W"]}
  else vulnerable_players.

(* ================================================================== *)
(** * Declarer candidates ([src/dds.py], [determine_declarer_candidates]) *)
(* ================================================================== *)

(** A [for x in l: body] loop over an immutable list, threading the
    local variables [st] and stopping at the first exception. *)
Fixpoint for_each {S A} (body : S → A → result S) (st : S) (l : list A) : result S :=
  match l with
  | [] => Ok st
  | x :: l' => st' ← body st x; for_each body st' l'
  end.

(** The partner of a seat: [(seat + 2) % 4]. *)
Definition partner (seat : Z) : Z := (seat + 2) `mod` 4.

Definition ALL_SEATS : gset Z := {[0; 1; 2; 3]}.

(** One iteration of the loop of [determine_declarer_candidates]; the
    state is [(bidder_index, suit_to_declarer_candidates)].  The three
    conjuncts of the [if] are evaluated left to right, [d[bid[1]]] is a
    dictionary look-up ([KeyError]) and [set.remove] is guarded by the
    membership test just before. *)
Definition candidates_step (st : Z * gmap string (gset Z)) (bid : string)
  : result (Z * gmap string (gset Z)) :=
  let bidder_index : Z := st.1 in
  let suit_to_declarer_candidates : gmap string (gset Z) := st.2 in
  suit_to_declarer_candidates ←
    (if Py.mem bid ORDERED_CONTRACT_BIDS then
       suit ← Py.item bid 1;
       candidates ← of_option (suit_to_declarer_candidates !! suit) KeyError;
       if bool_decide (bidder_index ∈ candidates)
          && bool_decide (partner bidder_index ∈ candidates)
       then Ok (<[suit := candidates ∖ {[partner bidder_index]}]>
                  suit_to_declarer_candidates)
       else Ok suit_to_declarer_candidates
     else Ok suit_to_declarer_candidates);
  Ok ((bidder_index + 1) `mod` 4, suit_to_declarer_candidates).

Definition determine_declarer_candidates (auction : string) (bidstart_index : Z)
  : result (gmap string (gset Z)) :=
  let suit_to_declarer_candidates : gmap string (gset Z) :=
    {[ "S" := ALL_SEATS; "H" := ALL_SEATS; "C" := ALL_SEATS;
       "D" := ALL_SEATS; "N" := ALL_SEATS ]} in
  snd <$> for_each candidates_step (bidstart_index, suit_to_declarer_candidates)
            (Py.split " " auction).

(** The rule as the claim words it, for comparison with the code: the
    partner of the bidder is removed whenever the partner is still
    eligible, whether or not the bidder itself still is. *)
Definition claimed_candidates_step (st : Z * gmap string (gset Z)) (bid : string)
  : result (Z * gmap string (gset Z)) :=
  let bidder_index : Z := st.1 in
  let suit_to_declarer_candidates : gmap string (gset Z) := st.2 in
  suit_to_declarer_candidates ←
    (if Py.mem bid ORDERED_CONTRACT_BIDS then
       suit ← Py.item bid 1;
       candidates ← of_option (suit_to_declarer_candidates !! suit) KeyError;
       if bool_decide (partner bidder_index ∈ candidates)
       then Ok (<[suit := candidates ∖ {[partner bidder_index]}]>
                  suit_to_declarer_candidates)
       else Ok suit_to_declarer_candidates
     else Ok suit_to_declarer_candidates);
  Ok ((bidder_index + 1) `mod` 4, suit_to_declarer_candidates).

Definition claimed_declarer_candidates (auction : string) (bidstart_index : Z)
  : result (gmap string (gset Z)) :=
  let suit_to_declarer_candidates : gmap string (gset Z) :=
    {[ "S" := ALL_SEATS; "H" := ALL_SEATS; "C" := ALL_SEATS;
       "D" := ALL_SEATS; "N" := ALL_SEATS ]} in
  snd <$> for_each claimed_candidates_step
            (bidstart_index, suit_to_declarer_candidates) (Py.split " " auction).

(** [bid] is a contract bid in denomination [denom]. *)
Definition bids_denomination (denom bid : string) : bool :=
  Py.mem bid ORDERED_CONTRACT_BIDS && bool_decide (Py.item bid 1 = Ok denom).

(** The first seat of the partnership [side] (0 for North-South, 1 for
    East-West) to bid [denom], when [bidder] makes the first call of [bids]
    and the calls go round the table. *)
Fixpoint first_to_bid (denom : string) (side : Z) (bidder : Z) (bids : list string)
  : option Z :=
  match bids with
  | [] => None
  | bid :: rest =>
      if bids_denomination denom bid && bool_decide (bidder `mod` 2 = side)
      then Some bidder
      else first_to_bid denom side ((bidder + 1) `mod` 4) rest
  end.

Definition DENOMINATIONS : list string := ["S"; "H"; "D"; "C"; "N"].

(** Every denomination is a key of the dictionary throughout the loop. *)
Definition has_all_denominations (d : gmap string (gset Z)) : Prop :=
  ∀ denom, denom ∈ DENOMINATIONS → is_Some (d !! denom).

(* ================================================================== *)
(** * Token normalizer and auction validator ([src/data_cleaning.py]) *)
(* ================================================================== *)

(** [re.findall("|".join(alts), s)] for literal, non-empty alternatives:
    the scan goes left to right, at each position the first alternative
    that matches is taken and the scan resumes after it; a position where
    none matches is skipped.  The fuel is the length of [s]. *)
Fixpoint findall_fuel (fuel : nat) (alts : list string) (s : string) : list string :=
  match fuel with
  | O => []
  | S fuel' =>
      match s with
      | EmptyString => []
      | String _ s' =>
          match List.find (λ a, Py.startswith a s) alts with
          | Some a => a :: findall_fuel fuel' alts (Py.drop (String.length a) s)
          | None => findall_fuel fuel' alts s'
          end
      end
  end.
Definition findall (alts : list string) (s : string) : list string :=
  findall_fuel (String.length s) alts s.

Definition NORMALIZE_BID : gmap string string :=
  list_to_map [("PASS", "P"); ("AP", "P P P"); ("DBL", "X"); ("REDBL", "R");
               ("XX", "R"); ("PAS", "P"); ("S3", "3S"); ("XXX", "X R")].

(** [VALID_BIDS] is a set; only membership is asked of it, and its
    iteration order reaches the regular expression below, where it does
    not matter: after ["XX"] and ["PASS"], no alternative is a prefix of
    another one. *)
Definition VALID_BIDS : list string := ["P"; "R"; "X"] ++ ORDERED_CONTRACT_BIDS.

(** [["XX","PASS"] + list(VALID_BIDS - set("P"))]. *)
Definition BID_ALTERNATIVES : list string :=
  ["XX"; "PASS"] ++ filter (λ b, b ≠ "P") VALID_BIDS.

(** The body of the loop of [get_cleaned_bids]: what one raw token adds to
    [cleaned_bids]. *)
Definition clean_bid (bid : string) : list string :=
  let bid := Py.upper bid in
  let bid := Py.rstrip "!" bid in
  let bid := Py.lstrip "=0=" bid in
  if Py.mem bid VALID_BIDS then [bid]
  else match NORMALIZE_BID !! bid with
       | Some normalized_bid => Py.split " " normalized_bid
       | None =>
           (λ bid, default bid (NORMALIZE_BID !! bid))
             <$> findall BID_ALTERNATIVES bid
       end.

(** [get_cleaned_bids(auction)]. *)
Definition get_cleaned_bids (auction : string) : list string :=
  foldl (λ cleaned_bids bid, cleaned_bids ++ clean_bid bid) []
        (Py.split " " auction).

(** The first loop of [validate_auction]: the contract bids, and the runs
    of other calls before the first contract bid and after each one. *)
Definition separate_bids (cleaned_bids : list string)
  : list string * list (list string) :=
  let '(contract_bids, non_contract_bids, _) :=
    foldl (λ '(contract_bids, non_contract_bids, number_of_contract_bids) bid,
             if negb (Py.mem bid ORDERED_CONTRACT_BIDS)
             then (contract_bids,
                   alter (λ run, run ++ [bid]) number_of_contract_bids
                         non_contract_bids,
                   number_of_contract_bids)
             else (contract_bids ++ [bid], non_contract_bids ++ [[]],
                   S number_of_contract_bids))
          ([], [[]], O) cleaned_bids in
  (contract_bids, non_contract_bids).

(** The second loop: every contract bid ranks above the one before. *)
Definition check_increasing (contract_bids : list string) : result Z :=
  for_each (λ current_bid_index bid,
              i ← of_option (Py.list_index bid ORDERED_CONTRACT_BIDS) ValueError;
              if Z.of_nat i <=? current_bid_index then Raise ContractBidError
              else Ok (Z.of_nat i))
           (-1) contract_bids.

(** The inner loop of the third one, over one run; the state is
    [(pos, doubled, redoubled)]. *)
Definition check_run (contract_bid_made : nat) (bid_sequence : list string)
  : result (nat * bool * bool) :=
  for_each (λ '(pos, doubled, redoubled) bid,
              if Py.str_eqb bid "X" then
                if doubled || redoubled || negb (pos `mod` 2 =? 0)%nat
                   || (contract_bid_made =? 0)%nat
                then Raise DoubleBidError
                else Ok (S pos, true, redoubled)
              else if Py.str_eqb bid "R" then
                if negb doubled || redoubled || (pos `mod` 2 =? 0)%nat
                   || (contract_bid_made =? 0)%nat
                then Raise RedoubleBidError
                else Ok (S pos, doubled, true)
              else Ok (S pos, doubled, redoubled))
           (O, false, false) bid_sequence.

Definition check_doubles (non_contract_bids : list (list string)) : result nat :=
  for_each (λ contract_bid_made bid_sequence,
              _ ← check_run contract_bid_made bid_sequence;
              Ok (S contract_bid_made))
           O non_contract_bids.

(** [validate_auction(auction)]. *)
Definition validate_auction (auction : string) : result string :=
  if negb (Py.truthy auction) then Raise MissingAuctionError
  else
    let cleaned_bids := get_cleaned_bids auction in
    let cleaned_auction := Py.join " " cleaned_bids in
    if negb (Py.find "P P P" 1 cleaned_auction =? Py.len cleaned_auction - 5)
    then Raise PassError
    else
      let '(contract_bids, non_contract_bids) := separate_bids cleaned_bids in
      _ ← check_increasing contract_bids;
      _ ← check_doubles non_contract_bids;
      Ok cleaned_auction.

(** A token of a cleaned auction has one character, or two characters
    neither of which is [P]. *)
Definition clean_token (t : string) : bool :=
  match t with
  | String _ EmptyString => true
  | String c1 (String c2 EmptyString) =>
      negb (bool_decide (c1 = "P"%char)) && negb (bool_decide (c2 = "P"%char))
  | _ => false
  end.

Definition THREE_PASSES : list string := ["P"; "P"; "P"].

(** [bids] begins with three passes. *)
Definition three_passes (bids : list string) : bool :=
  bool_decide (take 3 bids = THREE_PASSES).

(** The first run of three consecutive passes in [bids] is made of its
    last three tokens. *)
Fixpoint passes_only_at_end (bids : list string) : bool :=
  match bids with
  | [] => false
  | _ :: rest =>
      if three_passes bids then bool_decide (length bids = 3%nat)
      else passes_only_at_end rest
  end.

(** The pass rule that [validate_auction] enforces on the cleaned tokens:
    there is a first token, then any tokens, then three passes that end
    the auction, and no three consecutive passes start at a position from
    1 up to the one just before these last three. *)
Definition pass_rule (bids : list string) : Prop :=
  ∃ first front,
    bids = first :: front ++ THREE_PASSES ∧
    ∀ i, (1 ≤ i ≤ length front)%nat → take 3 (drop i bids) ≠ THREE_PASSES.

(* ================================================================== *)
(** * Deal validator ([src/data_cleaning.py], [validate_deal]) *)
(* ================================================================== *)

(** The innermost loop body of [validate_deal]; the state is
    [(deck, player_hands)].  [deck[suit_pos]] can raise [IndexError],
    which the [except ValueError] does not catch; the [ValueError] of
    [remove] becomes [CardError]. *)
Definition deal_card (suit_pos seat : nat)
    (st : list (list string) * list (list string)) (card : string)
  : result (list (list string) * list (list string)) :=
  let deck := st.1 in
  let player_hands := st.2 in
  ranks ← of_option (deck !! suit_pos) IndexError;
  ranks ← of_option (Py.list_remove card ranks) CardError;
  suit ← of_option (SUITS !! suit_pos) IndexError;
  Ok (<[suit_pos := ranks]> deck,
      alter (λ hand, hand ++ [suit +:+ card]) seat player_hands).

Definition deal_suit (seat : nat)
    (st : list (list string) * list (list string)) (entry : nat * string)
  : result (list (list string) * list (list string)) :=
  for_each (deal_card entry.1 seat) st (Py.chars entry.2).

(** One iteration of the outer loop: the hand listed at [player_pos]
    goes to seat [(player_pos + player_offset) % 4]. *)
Definition deal_hand (player_offset : nat)
    (st : list (list string) * list (list string)) (entry : nat * string)
  : result (list (list string) * list (list string)) :=
  let suits := Py.split "." entry.2 in
  if negb (sum_list (String.length <$> suits) =? 13)%nat
  then Raise UnbalancedDealError
  else for_each (deal_suit ((entry.1 + player_offset) `mod` 4)%nat) st
                (Py.enumerate suits).

(** [validate_deal(deal)]. *)
Definition validate_deal (deal : string) : result (list (list string)) :=
  if negb (Py.truthy deal) then Raise MissingDealError
  else
    seat ← Py.item deal 0;
    player_offset ← of_option (Py.list_index seat ORDER) ValueError;
    let deal := Py.drop 2 deal in
    let deck := replicate 4 RANKS in
    let player_hands := replicate 4 [] in
    let hands := Py.split " " deal in
    snd <$> for_each (deal_hand player_offset) (deck, player_hands)
              (Py.enumerate hands).

(** The 52 cards, as [validate_deal] spells them: suit then rank. *)
Definition DECK : list string :=
  suit ← ["S"; "H"; "D"; "C"]; rank ← RANKS; [suit +:+ rank].

(** The cards still in [deck], spelled the same way. *)
Definition deck_cards (deck : list (list string)) : list string :=
  concat (zip_with (λ suit ranks, (String.app suit) <$> ranks) SUITS deck).

(** What the loops of [validate_deal] keep true of [(deck, player_hands)]:
    there are four hands, and the cards dealt so far together with the
    cards left in the deck are the 52 cards. *)
Definition deal_inv (st : list (list string) * list (list string)) : Prop :=
  length st.2 = 4%nat ∧ concat st.2 ++ deck_cards st.1 ≡ₚ DECK.

(** The number of cards that seat [j] holds in the state. *)
Definition hand_size (j : nat) (st : list (list string) * list (list string)) : nat :=
  length (default [] (st.2 !! j)).

(* ================================================================== *)
(** * Object store: the list objects that functions receive by reference *)
(* ================================================================== *)

(** [validate_play] receives [hands], a list of lists of strings, by
    reference, and [list.remove] mutates a list object in place.  The
    store holds the list objects; a list of hands is a [PyRefList] of the
    locations of its hands, a hand is a [PyStrList].  Strings are
    immutable and are kept by value. *)
Definition loc := nat.

Inductive pyobj : Type :=
  | PyStrList (items : list string)
  | PyRefList (items : list loc).

(** A computation on the store, which goes on existing when an exception
    is raised. *)
Definition pyM (A : Type) : Type := gmap loc pyobj → result A * gmap loc pyobj.

Global Instance pyM_ret : MRet pyM := λ A a h, (Ok a, h).
Global Instance pyM_bind : MBind pyM := λ A B f m h,
  match m h with
  | (Ok a, h') => f a h'
  | (Raise e, h') => (Raise e, h')
  end.

Definition raise {A} (e : exn) : pyM A := λ h, (Raise e, h).

Definition lift {A} (r : result A) : pyM A := λ h, (r, h).

(** A new object gets a location that is not in use. *)
Definition alloc (o : pyobj) : pyM loc := λ h,
  let l := fresh (dom h) in (Ok l, <[l := o]> h).

Definition load_refs (l : loc) : pyM (list loc) := λ h,
  match h !! l with
  | Some (PyRefList items) => (Ok items, h)
  | Some (PyStrList _) => (Raise TypeError, h)
  | None => (Raise SystemError, h)
  end.

Definition load_strs (l : loc) : pyM (list string) := λ h,
  match h !! l with
  | Some (PyStrList items) => (Ok items, h)
  | Some (PyRefList _) => (Raise TypeError, h)
  | None => (Raise SystemError, h)
  end.

Definition store (l : loc) (o : pyobj) : pyM () := λ h, (Ok (), <[l := o]> h).

(** [try: m  except C: h] on the store. *)
Definition try_except_st {A} (m : pyM A) (C : exn → bool) (handler : exn → pyM A)
  : pyM A := λ h,
  match m h with
  | (Ok a, h') => (Ok a, h')
  | (Raise e, h') => if C e then handler e h' else (Raise e, h')
  end.

(** A [for] loop over an immutable sequence whose body works on the store. *)
Fixpoint for_each_st {S A} (body : S → A → pyM S) (st : S) (l : list A) : pyM S :=
  match l with
  | [] => mret st
  | x :: l' => st' ← body st x; for_each_st body st' l'
  end.

(** [hands[i]] for [0 <= i]: the location of hand [i]. *)
Definition hands_item (hands : loc) (i : nat) : pyM loc :=
  refs ← load_refs hands; lift (of_option (refs !! i) IndexError).

(** [hands[i].remove(card)]. *)
Definition hand_remove (hands : loc) (i : nat) (card : string) : pyM () :=
  hand ← hands_item hands i;
  cards ← load_strs hand;
  match Py.list_remove card cards with
  | Some cards => store hand (PyStrList cards)
  | None => raise ValueError
  end.

(** [copy.deepcopy(hands)] for a list of lists of strings.  The new outer
    list is created first and entered in the memo; each element is then
    copied, an element already in the memo being copied once only, and
    appended to the new list. *)
Definition deepcopy_item (y : loc) (memo : gmap loc loc) (a : loc)
  : pyM (gmap loc loc) :=
  '(a', memo) ← match memo !! a with
                | Some a' => mret (a', memo)
                | None =>
                    items ← load_strs a;
                    a' ← alloc (PyStrList items);
                    mret (a', <[a := a']> memo)
                end;
  copied ← load_refs y;
  _ ← store y (PyRefList (copied ++ [a']));
  mret memo.

Definition deepcopy (hands : loc) : pyM loc :=
  items ← load_refs hands;
  y ← alloc (PyRefList []);
  _ ← for_each_st (deepcopy_item y) {[hands := y]} items;
  mret y.

(* ================================================================== *)
(** * Play validator ([src/data_cleaning.py]) *)
(* ================================================================== *)

(** [RANK_TO_VALUE] of [determine_trick_winner]. *)
Definition RANK_TO_VALUE : gmap string Z :=
  list_to_map [("T", 10); ("J", 11); ("Q", 12); ("K", 13); ("A", 14);
               ("2", 2); ("3", 3); ("4", 4); ("5", 5); ("6", 6); ("7", 7);
               ("8", 8); ("9", 9)].

(** [RANK_TO_VALUE[card[1]]]. *)
Definition rank_value (card : string) : result Z :=
  rank ← Py.item card 1; of_option (RANK_TO_VALUE !! rank) KeyError.

(** One iteration of the loop of [determine_trick_winner]; the state is
    [(highest_trump, highest_led, winning_player)].  The conditions are
    evaluated left to right and stop at the first false conjunct. *)
Definition trick_winner_step (trump led_suit : string) (lead : Z)
    (st : Z * Z * Z) (entry : nat * string) : result (Z * Z * Z) :=
  let '(highest_trump, highest_led, winning_player) := st in
  let '(pos, card) := entry in
  suit ← Py.item card 0;
  is_higher_trump ←
    (if Py.str_eqb suit trump
     then value ← rank_value card; Ok (highest_trump <? value) else Ok false);
  if is_higher_trump : bool then
    value ← rank_value card;
    Ok (value, highest_led, (lead + Z.of_nat pos) `mod` 4)
  else
    is_higher_led ←
      (if Py.str_eqb suit led_suit && (highest_trump =? -1)
       then value ← rank_value card; Ok (highest_led <? value) else Ok false);
    if is_higher_led : bool then
      value ← rank_value card;
      Ok (highest_trump, value, (lead + Z.of_nat pos) `mod` 4)
    else Ok st.

(** [determine_trick_winner(trick, trump, lead)]. *)
Definition determine_trick_winner (trick : list string) (trump : string) (lead : Z)
  : result Z :=
  first ← of_option (trick !! O) IndexError;
  led_suit ← Py.item first 0;
  '(_, _, winning_player) ←
    for_each (trick_winner_step trump led_suit lead) (-1, -1, -1)
             (Py.enumerate trick);
  Ok winning_player.

(** [hands[i]] read through to the cards of the hand. *)
Definition hand_cards (hands : loc) (i : nat) : pyM (list string) :=
  hand ← hands_item hands i; load_strs hand.

(** The loop of [reneged]; [entries] is what is left of
    [enumerate(trick)].  At position 0 [trick[0]] is the card at hand.
    The hand of a seat is read only when its card is not of the led suit,
    and the first revoke found ends the loop. *)
Fixpoint reneged_loop (hands : loc) (lead : Z) (led_suit : string)
    (entries : list (nat * string)) : pyM bool :=
  match entries with
  | [] => mret false
  | entry :: rest =>
      if (entry.1 =? 0)%nat then
        led_suit ← lift (Py.item entry.2 0);
        reneged_loop hands lead led_suit rest
      else
        suit ← lift (Py.item entry.2 0);
        if negb (Py.str_eqb suit led_suit) then
          cards ← hand_cards hands (Z.to_nat ((lead + Z.of_nat entry.1) `mod` 4));
          suits ← lift (mapM (λ card, Py.item card 0) cards);
          if Py.mem led_suit suits then mret true
          else reneged_loop hands lead led_suit rest
        else reneged_loop hands lead led_suit rest
  end.

(** [reneged(trick, hands, lead)]. *)
Definition reneged (trick : list string) (hands : loc) (lead : Z) : pyM bool :=
  reneged_loop hands lead "" (Py.enumerate trick).

(** [validate_dashes(ordered_trick)]. *)
Definition validate_dashes (ordered_trick : list string) : result nat :=
  for_each (λ num_dashes entry,
              if Py.str_eqb entry.2 "-" then
                if (entry.1 =? 0)%nat then Raise FirstCardIsDashError
                else Ok (S num_dashes)
              else
                if negb (num_dashes =? 0)%nat then Raise CardAfterDashError
                else Ok num_dashes)
           O (Py.enumerate ordered_trick).

(** The loop [for play in plays: if play not in valid_plays:
    plays.remove(play)].  The list is mutated while it is iterated: the
    iterator keeps an index [i], stops when [i] reaches the current
    length, and [remove] deletes the first occurrence of the value.  The
    fuel is the initial length, which bounds the number of iterations. *)
Fixpoint remove_invalid_plays (fuel i : nat) (valid_plays plays : list string)
  : list string :=
  match fuel with
  | O => plays
  | S fuel' =>
      match plays !! i with
      | None => plays
      | Some play =>
          if negb (Py.mem play valid_plays)
          then remove_invalid_plays fuel' (S i) valid_plays
                 (default plays (Py.list_remove play plays))
          else remove_invalid_plays fuel' (S i) valid_plays plays
      end
  end.

(** The local variables that the main loop of [validate_play] updates. *)
Record play_state : Type := PlayState {
  ordered_play_sequence : string;
  play_order_sequence : list Z;
  tricks_played : Z;
  tricks_won_by_declarer : Z;
  trick_leader : Z;
  trick : list string;
  num_dashes : nat
}.

(** The [for trick_pos in range(...)] loop that puts a listed trick in the
    order it was played; the state is
    [(ordered_play_sequence, play_order_sequence, ordered_trick)]. *)
Definition reorder_step (lead_player : Z) (trick : list string)
    (st : string * list Z * list string) (trick_pos : Z)
  : result (string * list Z * list string) :=
  let '(ordered_play_sequence, play_order_sequence, ordered_trick) := st in
  card ← of_option (trick !! Z.to_nat (trick_pos `mod` 4)) IndexError;
  let '(ordered_play_sequence, play_order_sequence) :=
    if negb (Py.str_eqb card "-")
    then (ordered_play_sequence +:+ card,
          play_order_sequence ++ [(lead_player + trick_pos) `mod` 4])
    else (ordered_play_sequence, play_order_sequence) in
  Ok (ordered_play_sequence, play_order_sequence, ordered_trick ++ [card]).

(** What the main loop does at [pos % 4 == 3], with the trick complete. *)
Definition finish_trick (hands : loc) (trump : string) (lead_player declarer : Z)
    (st : play_state) : pyM play_state :=
  let first := trick_leader st - lead_player in
  '(ordered_play_sequence, play_order_sequence, ordered_trick) ←
    lift (for_each (reorder_step lead_player (trick st))
            (ordered_play_sequence st, play_order_sequence st, [])
            [first; first + 1; first + 2; first + 3]);
  num_dashes ← lift (validate_dashes ordered_trick);
  has_reneged ← reneged (take (4 - num_dashes) ordered_trick) hands (trick_leader st);
  if has_reneged : bool then raise RenegeError
  else if (num_dashes =? 0)%nat then
    trick_leader ← lift (determine_trick_winner ordered_trick trump (trick_leader st));
    let tricks_won_by_declarer :=
      if bool_decide (trick_leader = declarer)
         || bool_decide (trick_leader = (declarer + 2) `mod` 4)
      then tricks_won_by_declarer st + 1 else tricks_won_by_declarer st in
    mret (PlayState ordered_play_sequence play_order_sequence
            (tricks_played st + 1) tricks_won_by_declarer trick_leader []
            num_dashes)
  else
    mret (PlayState ordered_play_sequence play_order_sequence
            (tricks_played st) (tricks_won_by_declarer st) (trick_leader st) []
            num_dashes).

(** The body of the main loop of [validate_play]. *)
Definition play_step (hands : loc) (trump : string) (lead_player declarer : Z)
    (st : play_state) (entry : nat * string) : pyM play_state :=
  let pos := entry.1 in
  let card := entry.2 in
  if negb (num_dashes st =? 0)%nat then raise MultipleClaimError
  else
    _ ← (if negb (Py.str_eqb card "-")
         then try_except_st
                (hand_remove hands
                   (Z.to_nat ((lead_player + Z.of_nat pos) `mod` 4)) card)
                (is_exn ValueError) (λ _, raise PlayError)
         else mret ());
    let st := PlayState (ordered_play_sequence st) (play_order_sequence st)
                (tricks_played st) (tricks_won_by_declarer st)
                (trick_leader st) (trick st ++ [card]) (num_dashes st) in
    if (pos `mod` 4 =? 3)%nat
    then finish_trick hands trump lead_player declarer st
    else mret st.

Definition RECOGNIZABLE_BIDS : list (string * string) :=
  [("HTHQ", "HT HQ"); ("--", "-")].

(** [validate_play(play_sequence, lead, hands, trump)]; the result is
    [(ordered_play_sequence, play_order_sequence, tricks_played,
    tricks_won_by_declarer)]. *)
Definition validate_play (play_sequence lead : string) (hands : loc) (trump : string)
  : pyM (string * list Z * Z * Z) :=
  if negb (Py.truthy play_sequence) || negb (Py.truthy lead)
     || negb (Py.truthy trump)
  then raise MissingPlaySequenceInfoError
  else
    hands ← deepcopy hands;
    let play_sequence :=
      foldl (λ play_sequence item, Py.replace item.1 item.2 play_sequence)
            play_sequence RECOGNIZABLE_BIDS in
    let plays := Py.split " " play_sequence in
    hand_refs ← load_refs hands;
    valid_plays ←
      for_each_st (λ valid_plays hand,
                     cards ← load_strs hand; mret (valid_plays ++ cards))
                  ["-"] hand_refs;
    let plays := remove_invalid_plays (length plays) 0 valid_plays plays in
    if negb (length plays `mod` 4 =? 0)%nat then raise UnbalancedPlaySequenceError
    else
      lead_player ← lift (Z.of_nat <$> of_option (Py.list_index lead ORDER) ValueError);
      let declarer := (lead_player - 1) `mod` 4 in
      st ← for_each_st (play_step hands trump lead_player declarer)
             (PlayState "" [] 0 0 lead_player [] 0) (Py.enumerate plays);
      mret (ordered_play_sequence st, play_order_sequence st, tricks_played st,
            tricks_won_by_declarer st).

(** A store that holds the given hands and nothing else, with the
    location of the list of hands: what a caller passes who has just built
    the hands, as [clean_board] does with the result of [validate_deal]. *)
Definition alloc_hands (player_hands : list (list string)) : pyM loc :=
  refs ← for_each_st (λ refs hand, r ← alloc (PyStrList hand); mret (refs ++ [r]))
           [] player_hands;
  alloc (PyRefList refs).

(** A call [f(..., hands, ...)] by a caller that holds [player_hands] and
    shares it with nobody: the result of the call. *)
Definition call_with_hands {A} (player_hands : list (list string))
    (f : loc → pyM A) : result A :=
  ((hands ← alloc_hands player_hands; f hands) ∅).1.

(* ================================================================== *)
(** * Reasoning about computations on the store *)
(* ================================================================== *)

(** [hoare P m Q E]: run from a store that satisfies [P], [m] returns a
    value and a store that satisfy [Q], or raises an exception in a store
    that satisfy [E].  Computations are total functions, so this is total
    correctness. *)
Definition hoare {A} (P : gmap loc pyobj → Prop) (m : pyM A)
    (Q : A → gmap loc pyobj → Prop) (E : exn → gmap loc pyobj → Prop) : Prop :=
  ∀ h, P h → match m h with
             | (Ok a, h') => Q a h'
             | (Raise e, h') => E e h'
             end.

(** [m] leaves the store as it is. *)
Definition readonly {A} (m : pyM A) : Prop := ∀ h, (m h).2 = h.

(** Every object of [h0] is in [h], unchanged. *)
Definition unchanged (h0 h : gmap loc pyobj) : Prop :=
  ∀ l, is_Some (h0 !! l) → h !! l = h0 !! l.

(** The copy [y] that [validate_play] works on is private: the store [h0]
    of the caller is unchanged, [y] is not a location of [h0], and as long
    as [y] is a list of hands none of its hands is a location of [h0]. *)
Definition private_copy (h0 : gmap loc pyobj) (y : loc) (h : gmap loc pyobj) : Prop :=
  unchanged h0 h ∧ h0 !! y = None ∧
  ∀ refs, h !! y = Some (PyRefList refs) → Forall (λ r, h0 !! r = None) refs.

(* ================================================================== *)
(** * Derived look-ups and whole-board assembly ([src/data_cleaning.py]) *)
(* ================================================================== *)

(** [ensure_non_contradiction(value1, value2)]. *)
Definition ensure_non_contradiction (value1 value2 : string) : result string :=
  if Py.truthy value2 then
    if Py.truthy value1 && negb (Py.str_eqb value1 value2)
    then Raise ContradictionError
    else Ok value2
  else Ok value1.

(** [normalize_contract(contract)]. *)
Definition normalize_contract (contract : string) : string :=
  if Py.str_eqb (Py.upper contract) "PASS" then "P"
  else
    let contract :=
      if Py.str_eqb (Py.last_n 2 contract) "XX"
      then Py.but_last_n 2 contract +:+ "R" else contract in
    let contract :=
      if Py.str_eqb (Py.slice 1 3 contract) "NT"
      then Py.take 2 contract +:+ Py.drop 3 contract else contract in
    contract.

(** The loop of [find_contract_from_auction] over the reversed bids, with
    its [break]; the result is [(contract, double)]. *)
Fixpoint last_contract_bid (double : string) (reversed_bids : list string)
  : string * string :=
  match reversed_bids with
  | [] => ("", double)
  | bid :: rest =>
      if Py.str_eqb bid "R" then last_contract_bid "R" rest
      else if Py.str_eqb bid "X" then
        last_contract_bid (if negb (Py.str_eqb double "R") then "X" else double) rest
      else if negb (Py.str_eqb bid "P") then (bid, double)
      else last_contract_bid double rest
  end.

(** [find_contract_from_auction(auction)]. *)
Definition find_contract_from_auction (auction : string) : string :=
  if negb (Py.truthy auction) then ""
  else
    let result := last_contract_bid "" (reverse (Py.split " " auction)) in
    if Py.str_eqb result.1 "" then "P" else result.1 +:+ result.2.

(** The local variables of the loop of [find_declarer_from_auction]. *)
Record declarer_state : Type := DeclarerState {
  suit_to_first_player_to_bid : gmap string (list Z);
  winning_bidder : Z;
  winning_trump : string;
  current_bidder : Z
}.

Definition declarer_step (st : declarer_state) (bid : string) : result declarer_state :=
  st ←
    (if Py.mem bid ORDERED_CONTRACT_BIDS then
       suit ← Py.item bid 1;
       firsts ← of_option (suit_to_first_player_to_bid st !! suit) KeyError;
       first ← Py.list_item firsts (current_bidder st `mod` 2);
       suit_to_first ←
         (if first =? -1 then
            suit ← Py.item bid 1;
            firsts ← of_option (suit_to_first_player_to_bid st !! suit) KeyError;
            if (Z.to_nat (current_bidder st `mod` 2) <? length firsts)%nat
            then Ok (<[suit := <[Z.to_nat (current_bidder st `mod` 2)
                                 := current_bidder st]> firsts]>
                       (suit_to_first_player_to_bid st))
            else Raise IndexError
          else Ok (suit_to_first_player_to_bid st));
       trump ← Py.item bid 1;
       Ok (DeclarerState suit_to_first (current_bidder st) trump (current_bidder st))
     else Ok st);
  Ok (DeclarerState (suit_to_first_player_to_bid st) (winning_bidder st)
        (winning_trump st) ((current_bidder st + 1) `mod` 4)).

(** [find_declarer_from_auction(auction, bidstart)]. *)
Definition find_declarer_from_auction (auction bidstart : string) : result string :=
  if negb (Py.truthy auction) || negb (Py.truthy bidstart) then Ok ""
  else
    let suit_to_first : gmap string (list Z) :=
      {[ "N" := [-1; -1]; "S" := [-1; -1]; "H" := [-1; -1];
         "D" := [-1; -1]; "C" := [-1; -1] ]} in
    current_bidder ← of_option (Py.list_index bidstart ORDER) ValueError;
    st ← for_each declarer_step
           (DeclarerState suit_to_first (-1) "" (Z.of_nat current_bidder))
           (Py.split " " auction);
    if negb (Py.truthy (winning_trump st)) then Ok ""
    else
      firsts ← of_option (suit_to_first_player_to_bid st !! winning_trump st) KeyError;
      first ← Py.list_item firsts (winning_bidder st `mod` 2);
      Py.list_item ORDER first.

(** [find_lead_from_declarer(declarer)]. *)
Definition find_lead_from_declarer (declarer : string) : result string :=
  if negb (Py.truthy declarer) then Ok ""
  else if Py.str_eqb declarer "P" then Ok "P"
  else
    i ← of_option (Py.list_index declarer ORDER) ValueError;
    Py.list_item ORDER ((Z.of_nat i + 1) `mod` 4).

(** A value of type [str | int]. *)
Inductive pyval : Type :=
  | PyInt (z : Z)
  | PyStr (s : string).

(** [compute_claim(result, number_of_tricks_played,
    number_of_declarer_tricks)]; [int(result)] is the value itself for an
    integer and the parsed literal for a string. *)
Definition compute_claim : pyval → Z → Z → result Z :=
  λ result number_of_tricks_played number_of_declarer_tricks,
  parsed ←
    try_except
      (Some <$> match result with
                | PyInt z => Ok z
                | PyStr s => of_option (Py.int_of_str s) ValueError
                end)
      (is_exn ValueError) (λ _, Ok None);
  match parsed with
  | None => Ok (-1)
  | Some result =>
      if (result <? 0) || (13 <? result) then Ok (-1)
      else if (result <? number_of_declarer_tricks)
              || (13 - number_of_tricks_played <? result - number_of_declarer_tricks)
      then Raise ClaimError
      else Ok result
  end.

(* ================================================================== *)
(** * Year of a board ([src/data_cleaning.py], [compute_year]) *)
(* ================================================================== *)

(** Group 1 of [re.match(r"^(\d{4})\.", date)]. *)
Definition match_date (date : string) : option string :=
  let year := Py.take 4 date in
  if (String.length year =? 4)%nat
     && forallb Py.is_digit (String.list_ascii_of_string year)
     && Py.startswith "." (Py.drop 4 date)
  then Some year else None.

(** The four character classes [[1-2][0,9][0-2,5-9][0-9]]; the comma is a
    member of the second and the third. *)
Definition year_like (s : string) : bool :=
  match s with
  | String a (String b (String c (String d _))) =>
      bool_decide (a ∈ ["1"; "2"]%char)
      && bool_decide (b ∈ ["0"; ","; "9"]%char)
      && bool_decide (c ∈ ["0"; "1"; "2"; ","; "5"; "6"; "7"; "8"; "9"]%char)
      && Py.is_digit d
  | _ => false
  end.

(** Group 1 of [re.match(r".*([1-2][0,9][0-2,5-9][0-9])", event)]: [.*] is
    greedy and does not match a line feed, so the group is the last
    year-like window of the first line. *)
Fixpoint match_event (event : string) : option string :=
  match event with
  | EmptyString => None
  | String c rest =>
      if bool_decide (c = "010"%char) then None
      else match match_event rest with
           | Some year => Some year
           | None => if year_like event then Some (Py.take 4 event) else None
           end
  end.

Definition START_YEAR : Z := 1955.
Definition END_YEAR : Z := 2016.

(** One iteration of the loop of [compute_year]: [Some year] stands for
    [return year]. *)
Definition year_of_match (m : option string) : result (option Z) :=
  match m with
  | None => Ok None
  | Some group =>
      year ← of_option (Py.int_of_str group) ValueError;
      if (START_YEAR <=? year) && (year <=? END_YEAR) then Ok (Some year)
      else Ok None
  end.

(** [compute_year(event, date)]: both matches are computed, the date is
    looked at first. *)
Definition compute_year (event date : string) : result Z :=
  let matches := (match_date date, match_event event) in
  found ← year_of_match matches.1;
  match found with
  | Some year => Ok year
  | None =>
      found ← year_of_match matches.2;
      match found with
      | Some year => Ok year
      | None => Ok 0
      end
  end.

(** The raw contracts that the database holds besides a pass, as the
    docstrings list them: a level, a suit or [NT], and nothing, [X] or
    [XX]. *)
Definition RAW_CONTRACTS : list string :=
  level ← LEVELS; suit ← ["C"; "D"; "H"; "S"; "NT"]; double ← [""; "X"; "XX"];
  [level +:+ suit +:+ double].

(** The contracts that [clean_board] stores for a board that was not
    passed out, in the order of [ORDERED_CONTRACT_BIDS]. *)
Definition NORMALIZED_CONTRACTS : list string :=
  bid ← ORDERED_CONTRACT_BIDS; double ← [""; "X"; "R"]; [bid +:+ double].

(** The four decimal digits of a year from 0 to 9999, as a date of the
    database begins with them. *)
Definition year_digits (year : Z) : string :=
  let digit (n : Z) : ascii := ascii_of_nat (Z.to_nat (48 + n `mod` 10)) in
  String (digit (year / 1000)) (String (digit (year / 100))
    (String (digit (year / 10)) (String (digit year) ""))).

(* ================================================================== *)
(** * Theorems *)
(* ================================================================== *)

Example ORDERED_CONTRACT_BIDS_spelled :
  ORDERED_CONTRACT_BIDS =
  ["1C";"1D";"1H";"1S";"1N"; "2C";"2D";"2H";"2S";"2N"; "3C";"3D";"3H";"3S";"3N";
   "4C";"4D";"4H";"4S";"4N"; "5C";"5D";"5H";"5S";"5N"; "6C";"6D";"6H";"6S";"6N";
   "7C";"7D";"7H";"7S";"7N"].
Proof. reflexivity. Qed.

(** The unit tests of [src/code/dds_tests.py] run on the embedding. *)
Example test_compute_undertrick_points :
  Score.compute_undertrick_points 1 "" true 1988 = -100 ∧
  Score.compute_undertrick_points 1 "" false 0 = -50 ∧
  Score.compute_undertrick_points 1 "X" true 1988 = -200 ∧
  Score.compute_undertrick_points 3 "X" true 1988 = -800 ∧
  Score.compute_undertrick_points 4 "X" true 1988 = -1100 ∧
  Score.compute_undertrick_points 1 "R" true 1988 = -400 ∧
  Score.compute_undertrick_points 2 "R" true 1988 = -1000 ∧
  Score.compute_undertrick_points 5 "R" true 1988 = -2800 ∧
  Score.compute_undertrick_points 1 "X" false 1988 = -100 ∧
  Score.compute_undertrick_points 2 "X" false 1988 = -300 ∧
  Score.compute_undertrick_points 4 "X" false 1988 = -800 ∧
  Score.compute_undertrick_points 4 "X" false 1987 = -700 ∧
  Score.compute_undertrick_points 1 "R" false 1988 = -200 ∧
  Score.compute_undertrick_points 3 "R" false 1988 = -1000 ∧
  Score.compute_undertrick_points 6 "R" false 1988 = -2800.
Proof. repeat split; vm_compute; reflexivity. Qed.

Example test_compute_overtrick_points :
  Score.compute_overtrick_points 2 "H" "" false = 60 ∧
  Score.compute_overtrick_points 2 "D" "" false = 40 ∧
  Score.compute_overtrick_points 2 "N" "" true = 60 ∧
  Score.compute_overtrick_points 4 "C" "R" true = 1600 ∧
  Score.compute_overtrick_points 3 "N" "R" false = 600 ∧
  Score.compute_overtrick_points 5 "S" "X" false = 500 ∧
  Score.compute_overtrick_points 1 "N" "X" true = 200.
Proof. repeat split; vm_compute; reflexivity. Qed.

Example test_compute_bonus_points :
  Score.compute_bonus_points 3 8 0 "" true = 0 ∧
  Score.compute_bonus_points 3 10 90 "" false = 50 ∧
  Score.compute_bonus_points 3 9 100 "" false = 300 ∧
  Score.compute_bonus_points 4 10 480 "R" true = 600 ∧
  Score.compute_bonus_points 6 12 120 "" false = 800 ∧
  Score.compute_bonus_points 6 12 120 "" true = 1250 ∧
  Score.compute_bonus_points 7 13 210 "" false = 1300 ∧
  Score.compute_bonus_points 7 13 210 "" true = 2000 ∧
  Score.compute_bonus_points 7 12 0 "R" true = 0.
Proof. repeat split; vm_compute; reflexivity. Qed.

Example test_compute_contract_points :
  Score.compute_contract_points 1 "N" "" = 40 ∧
  Score.compute_contract_points 2 "H" "" = 60 ∧
  Score.compute_contract_points 3 "C" "" = 60 ∧
  Score.compute_contract_points 2 "N" "X" = 140 ∧
  Score.compute_contract_points 4 "S" "X" = 240 ∧
  Score.compute_contract_points 1 "D" "X" = 40 ∧
  Score.compute_contract_points 3 "N" "R" = 400 ∧
  Score.compute_contract_points 1 "H" "R" = 120 ∧
  Score.compute_contract_points 5 "D" "R" = 400.
Proof. repeat split; vm_compute; reflexivity. Qed.

(** ** Scoring: vulnerability *)

Lemma floordiv_by_1_5 (u : Z) :
  Py.int_of_float (Py.floordiv_float u 1.5) = (u * 10) / 15.
Proof.
  unfold Py.int_of_float, Py.floordiv_float. simpl.
  rewrite Z.quot_1_r. reflexivity.
Qed.

(** Going down: a vulnerable declarer always loses strictly more. *)
Lemma undertrick_points_vulnerable_lt (undertricks : Z) (double : string) (year : Z) :
  1 ≤ undertricks →
  Score.compute_undertrick_points undertricks double true year
  < Score.compute_undertrick_points undertricks double false year.
Proof.
  intros Hu. unfold Score.compute_undertrick_points. cbn [negb].
  rewrite floordiv_by_1_5.
  assert (undertricks * 10 / 15 ≤ undertricks)
    by (apply Z.div_le_upper_bound; lia).
  assert (undertricks < 3 → undertricks * 10 / 15 < undertricks)
    by (intros; apply Z.div_lt_upper_bound; lia).
  destruct (Py.str_eqb double "R"), (Py.truthy double); cbn [negb];
    destruct (negb (year =? 0) && (year <=? 1987)); lia.
Qed.

(** The bonus of a vulnerable declarer is never smaller. *)
Lemma bonus_points_vulnerable_le (level will_make contract_points : Z) (double : string) :
  Score.compute_bonus_points level will_make contract_points double false
  ≤ Score.compute_bonus_points level will_make contract_points double true.
Proof.
  unfold Score.compute_bonus_points. cbn [negb].
  replace (Py.int_of_float (500 * 1.5)) with 750 by reflexivity.
  replace (Py.int_of_float (1000 * 1.5)) with 1500 by reflexivity.
  replace (Py.int_of_float (500 * 1)) with 500 by reflexivity.
  replace (Py.int_of_float (1000 * 1)) with 1000 by reflexivity.
  repeat match goal with |- context [if ?b then _ else _] => destruct b end; lia.
Qed.

Lemma overtrick_points_vulnerable_le (overtricks : Z) (trump double : string) :
  0 ≤ overtricks →
  Score.compute_overtrick_points overtricks trump double false
  ≤ Score.compute_overtrick_points overtricks trump double true.
Proof.
  intros Ho. unfold Score.compute_overtrick_points.
  repeat match goal with |- context [if ?b then _ else _] => destruct b end; lia.
Qed.

(** What [compute_score] returns once the contract string has been read. *)
Lemma compute_score_parsed contract level trump double will_make vul year :
  Py.item contract 0 ≫= Py.int_of_char = Ok level →
  Py.item contract 1 = Ok trump →
  try_except (Py.item contract 2) (is_exn IndexError) (λ _, Ok "") = Ok double →
  Score.compute_score contract will_make vul year =
  Ok (if will_make <? level + 6
      then Score.compute_undertrick_points ((level + 6) - will_make) double vul year
      else
        let points := Score.compute_contract_points level trump double in
        points + Score.compute_bonus_points level will_make points double vul
        + Score.compute_overtrick_points (will_make - (level + 6)) trump double vul).
Proof.
  intros H0 H1 H2. unfold Score.compute_score.
  destruct (Py.item contract 0) as [c0|]; [|discriminate]. cbn in H0 |- *.
  rewrite H0. cbn. rewrite H1. cbn. rewrite H2. cbn.
  destruct (will_make <? level + 6); reflexivity.
Qed.

Lemma valid_contract_parses contract :
  Score.valid_contract contract = true →
  ∃ level trump double,
    Py.item contract 0 ≫= Py.int_of_char = Ok level ∧
    Py.item contract 1 = Ok trump ∧
    try_except (Py.item contract 2) (is_exn IndexError) (λ _, Ok "") = Ok double ∧
    Score.contract_level contract = level.
Proof.
  unfold Score.valid_contract. intros H%bool_decide_eq_true.
  cbv [ORDERED_CONTRACT_BIDS LEVELS mbind list_bind foldr app String.append] in H.
  repeat (apply elem_of_cons in H as [->|H]; [by eauto 10|]).
  by apply elem_of_nil in H.
Qed.

(** C7: the three scoring fixtures of the specification:
    [compute_score("4HR", 10, True, 0)] is 1080,
    [compute_score("7H", 13, False, 0)] is 1510 and
    [compute_score("4SX", 8, True, 0)] is -500. *)
Theorem compute_score_fixtures :
  Score.compute_score "4HR" 10 true 0 = Ok 1080 ∧
  Score.compute_score "7H" 13 false 0 = Ok 1510 ∧
  Score.compute_score "4SX" 8 true 0 = Ok (-500).
Proof. repeat split; vm_compute; reflexivity. Qed.

(** The remaining rows of [test_compute_score]. *)
Example test_compute_score :
  Score.compute_score "1H" 9 false 0 = Ok 140 ∧
  Score.compute_score "1N" 9 true 0 = Ok 150 ∧
  Score.compute_score "3C" 9 true 0 = Ok 110.
Proof. repeat split; vm_compute; reflexivity. Qed.

(** C8: for every contract (level, denomination, doubled state), trick
    count from 0 on and year, [compute_score] returns for both
    vulnerabilities; when the contract is defeated the vulnerable score is
    strictly smaller, and when it is made the vulnerable score is at least
    the other one. *)
Theorem compute_score_vulnerability (contract : string) (will_make year : Z) :
  Score.valid_contract contract = true →
  0 ≤ will_make →
  ∃ vulnerable_score plain_score,
    Score.compute_score contract will_make true year = Ok vulnerable_score ∧
    Score.compute_score contract will_make false year = Ok plain_score ∧
    (will_make < Score.contract_level contract + 6 →
       vulnerable_score < plain_score) ∧
    (Score.contract_level contract + 6 ≤ will_make →
       plain_score ≤ vulnerable_score).
Proof.
  intros (level & trump & double & H0 & H1 & H2 & ->)%valid_contract_parses _.
  do 2 eexists. split; [|split].
  - by apply compute_score_parsed.
  - by apply compute_score_parsed.
  - split; intros Hcmp.
    + assert ((will_make <? level + 6) = true) as -> by lia.
      apply undertrick_points_vulnerable_lt. lia.
    + assert ((will_make <? level + 6) = false) as -> by lia. cbn zeta.
      pose proof (bonus_points_vulnerable_le level will_make
        (Score.compute_contract_points level trump double) double).
      pose proof (overtrick_points_vulnerable_le (will_make - (level + 6))
        trump double).
      lia.
Qed.

Lemma compute_score_vulnerability_witness :
  Score.valid_contract "4SX" = true ∧ 0 ≤ 8 ∧
  ∃ vulnerable_score plain_score,
    Score.compute_score "4SX" 8 true 1990 = Ok vulnerable_score ∧
    Score.compute_score "4SX" 8 false 1990 = Ok plain_score ∧
    (8 < Score.contract_level "4SX" + 6 → vulnerable_score < plain_score) ∧
    (Score.contract_level "4SX" + 6 ≤ 8 → plain_score ≤ vulnerable_score).
Proof.
  split; [reflexivity|]. split; [lia|].
  apply (compute_score_vulnerability "4SX" 8 1990); [reflexivity|lia].
Defined.

(** ** Vulnerability *)

(** C10: for every input string [get_vulnerable_players] returns the set
    of all four seats; the loop variable of the normalization loop
    overwrites the argument, so the result does not depend on it. *)
Theorem get_vulnerable_players_all (vulnerable : string) :
  get_vulnerable_players vulnerable = {["N"; "E"; "S"; "W"]}.
Proof. reflexivity. Qed.

Example get_vulnerable_players_never_partial :
  get_vulnerable_players "NS" ≠ {["N"; "S"]} ∧
  get_vulnerable_players "EW" ≠ {["E"; "W"]} ∧
  get_vulnerable_players "None" ≠ ∅.
Proof. repeat split; by vm_compute. Qed.

(** ** Declarer candidates *)

(** The fixtures of [test_determine_declarer_candidates]. *)
Example test_determine_declarer_candidates :
  determine_declarer_candidates "1S 2H 3C P P P" 0
    = Ok {[ "S" := {[0; 1; 3]}; "H" := {[0; 1; 2]}; "D" := {[0; 1; 2; 3]};
            "C" := {[1; 2; 3]}; "N" := {[0; 1; 2; 3]} ]} ∧
  determine_declarer_candidates "1S 2N 3S 4N P P P" 3
    = Ok {[ "S" := {[0; 2; 3]}; "H" := {[0; 1; 2; 3]}; "D" := {[0; 1; 2; 3]};
            "C" := {[0; 1; 2; 3]}; "N" := {[0; 1; 3]} ]} ∧
  determine_declarer_candidates "1S 2S 3S 4S P P P" 0
    = Ok {[ "S" := {[0; 1]}; "H" := {[0; 1; 2; 3]}; "D" := {[0; 1; 2; 3]};
            "C" := {[0; 1; 2; 3]}; "N" := {[0; 1; 2; 3]} ]}.
Proof. repeat split; vm_compute; reflexivity. Qed.

Lemma contract_bid_denomination bid :
  Py.mem bid ORDERED_CONTRACT_BIDS = true →
  ∃ denom, Py.item bid 1 = Ok denom ∧ denom ∈ DENOMINATIONS.
Proof.
  unfold Py.mem. intros H%bool_decide_eq_true.
  cbv [ORDERED_CONTRACT_BIDS LEVELS mbind list_bind foldr app String.append] in H.
  repeat (apply elem_of_cons in H as [->|H];
          [eexists; split; [reflexivity | compute_done]|]).
  by apply elem_of_nil in H.
Qed.

(** One iteration: the bidder moves on, and the only set that can change
    is the one of the denomination bid, which loses the bidder's partner
    exactly when bidder and partner are both still in it. *)
Lemma candidates_step_spec bidder d bid :
  has_all_denominations d →
  ∃ d', candidates_step (bidder, d) bid = Ok ((bidder + 1) `mod` 4, d') ∧
        has_all_denominations d' ∧
        ∀ denom c, d !! denom = Some c →
          d' !! denom =
          Some (if bids_denomination denom bid && bool_decide (bidder ∈ c)
                   && bool_decide (partner bidder ∈ c)
                then c ∖ {[partner bidder]} else c).
Proof.
  intros Hall. unfold candidates_step, bids_denomination. cbn [fst snd].
  destruct (Py.mem bid ORDERED_CONTRACT_BIDS) eqn:Hmem; cbn [andb].
  - destruct (contract_bid_denomination _ Hmem) as (suit & Hsuit & Hin).
    rewrite Hsuit. cbn.
    destruct (Hall _ Hin) as [cs Hcs]. rewrite Hcs. cbn.
    destruct (bool_decide (bidder ∈ cs) && bool_decide (partner bidder ∈ cs))
      eqn:Hguard; cbn.
    + eexists. split; [reflexivity|]. split.
      * intros denom Hd. destruct (decide (suit = denom)) as [->|Hne].
        -- rewrite lookup_insert_eq. eauto.
        -- rewrite lookup_insert_ne by done. by apply Hall.
      * intros denom c Hc. destruct (decide (suit = denom)) as [->|Hne].
        -- rewrite lookup_insert_eq. rewrite Hcs in Hc. injection Hc as <-.
           rewrite bool_decide_eq_true_2 by done. cbn [andb].
           by rewrite Hguard.
        -- rewrite lookup_insert_ne by done.
           rewrite bool_decide_eq_false_2 by congruence. done.
    + eexists. split; [reflexivity|]. split; [done|].
      intros denom c Hc. destruct (decide (suit = denom)) as [->|Hne].
      * rewrite Hcs in Hc. injection Hc as <-.
        rewrite bool_decide_eq_true_2 by done. cbn [andb].
        by rewrite Hguard.
      * rewrite bool_decide_eq_false_2 by congruence. done.
  - eexists. split; [reflexivity|]. split; [done|]. done.
Qed.

Lemma seat_cases (s : Z) : 0 ≤ s < 4 → s = 0 ∨ s = 1 ∨ s = 2 ∨ s = 3.
Proof. lia. Qed.

(** The loop from any state: it never raises, sets only shrink, and a
    seat stays in the set of a denomination exactly when it was there and,
    if its partner was there too, the partner is not the first of the two
    to bid the denomination in the calls that follow. *)
Lemma candidates_loop_spec bids : ∀ bidder d,
  0 ≤ bidder < 4 →
  has_all_denominations d →
  ∃ bidder' d',
    for_each candidates_step (bidder, d) bids = Ok (bidder', d') ∧
    ∀ denom c, d !! denom = Some c →
      ∃ c', d' !! denom = Some c' ∧ c' ⊆ c ∧
        ∀ s, 0 ≤ s < 4 →
          (s ∈ c' ↔
           s ∈ c ∧ (partner s ∈ c →
                    first_to_bid denom (s `mod` 2) bidder bids ≠ Some (partner s))).
Proof.
  induction bids as [|bid rest IH]; intros bidder d Hb Hall.
  - exists bidder, d. split; [reflexivity|]. intros denom c Hc.
    exists c. split; [done|]. split; [done|]. intros s Hs. cbn. naive_solver.
  - destruct (candidates_step_spec bidder d bid Hall) as (d1 & Hstep & Hall1 & Hd1).
    assert (0 ≤ (bidder + 1) `mod` 4 < 4) as Hb1 by (apply Z.mod_pos_bound; lia).
    destruct (IH _ d1 Hb1 Hall1) as (bidder' & d' & Hloop & Hd').
    exists bidder', d'. split.
    { cbn [for_each]. rewrite Hstep. cbn. exact Hloop. }
    intros denom c Hc. specialize (Hd1 _ _ Hc).
    destruct (Hd' _ _ Hd1) as (c' & Hc' & Hsub & Hmem).
    exists c'. split; [done|]. split.
    { etrans; [exact Hsub|]. case_match; set_solver. }
    intros s Hs. rewrite (Hmem s Hs). clear Hmem Hd' Hloop Hstep IH Hsub Hc' Hd1.
    cbn [first_to_bid].
    destruct (bids_denomination denom bid); cbn [andb]; [|done].
    apply seat_cases in Hs. apply seat_cases in Hb.
    destruct Hb as [->|[->|[->| ->]]], Hs as [->|[->|[->| ->]]];
      change (partner 0) with 2; change (partner 1) with 3;
      change (partner 2) with 0; change (partner 3) with 1;
      change (0 `mod` 2) with 0; change (1 `mod` 2) with 1;
      change (2 `mod` 2) with 0; change (3 `mod` 2) with 1;
      repeat case_bool_decide; cbn [andb]; try done;
      set_solver.
Qed.

Lemma ALL_SEATS_spec (s : Z) : s ∈ ALL_SEATS ↔ 0 ≤ s < 4.
Proof. unfold ALL_SEATS. rewrite !elem_of_union, !elem_of_singleton. lia. Qed.

Lemma partner_bound (s : Z) : 0 ≤ partner s < 4.
Proof. unfold partner. apply Z.mod_pos_bound. lia. Qed.

(** C5, as the code has it: for every auction and bidstart seat index,
    [determine_declarer_candidates] returns a dictionary with a set for
    each of the five denominations, and a seat is in the set of a
    denomination exactly when its partner was not the first of their
    partnership to bid that denomination: a bid removes the partner of the
    bidder only while bidder and partner are both still eligible. *)
Theorem determine_declarer_candidates_first_bidder
    (auction : string) (bidstart_index : Z) :
  0 ≤ bidstart_index < 4 →
  ∃ d, determine_declarer_candidates auction bidstart_index = Ok d ∧
    ∀ denom, denom ∈ DENOMINATIONS →
      ∃ c, d !! denom = Some c ∧
        ∀ s, s ∈ c ↔
          0 ≤ s < 4 ∧
          first_to_bid denom (s `mod` 2) bidstart_index (Py.split " " auction)
            ≠ Some (partner s).
Proof.
  intros Hb. unfold determine_declarer_candidates.
  set (d0 := ({[ "S" := ALL_SEATS; "H" := ALL_SEATS; "C" := ALL_SEATS;
                 "D" := ALL_SEATS; "N" := ALL_SEATS ]} : gmap string (gset Z))).
  assert (∀ denom, denom ∈ DENOMINATIONS → d0 !! denom = Some ALL_SEATS) as Hd0.
  { intros denom Hin. unfold DENOMINATIONS in Hin.
    repeat (apply elem_of_cons in Hin as [->|Hin]; [by vm_compute|]).
    by apply elem_of_nil in Hin. }
  assert (has_all_denominations d0) as Hall by (intros denom Hin; rewrite Hd0; eauto).
  destruct (candidates_loop_spec (Py.split " " auction) bidstart_index d0 Hb Hall)
    as (bidder' & d' & Hloop & Hd').
  exists d'. rewrite Hloop. split; [reflexivity|].
  intros denom Hin. destruct (Hd' denom _ (Hd0 _ Hin)) as (c' & Hc' & Hsub & Hmem).
  exists c'. split; [done|]. intros s. split.
  - intros Hs. assert (0 ≤ s < 4) as Hrange by (apply ALL_SEATS_spec; set_solver).
    split; [done|]. apply (Hmem s Hrange) in Hs as [_ Hs]. apply Hs.
    apply ALL_SEATS_spec, partner_bound.
  - intros [Hrange Hfirst]. apply (Hmem s Hrange). split.
    + by apply ALL_SEATS_spec.
    + done.
Qed.

Lemma determine_declarer_candidates_first_bidder_witness :
  0 ≤ 0 < 4 ∧
  ∃ d, determine_declarer_candidates "1S 2S 3S 4S P P P" 0 = Ok d ∧
    ∀ denom, denom ∈ DENOMINATIONS →
      ∃ c, d !! denom = Some c ∧
        ∀ s, s ∈ c ↔
          0 ≤ s < 4 ∧
          first_to_bid denom (s `mod` 2) 0 (Py.split " " "1S 2S 3S 4S P P P")
            ≠ Some (partner s).
Proof.
  split; [lia|].
  apply (determine_declarer_candidates_first_bidder "1S 2S 3S 4S P P P" 0). lia.
Defined.

(** C5, as the claim words it, fails on the claim's own example: after
    ["1S 2S 3S 4S P P P"] from seat 0 the code leaves seats 0 and 1 in the
    spade set, although seats 2 and 3, no longer eligible themselves, bid
    spades while their partners 0 and 1 were still eligible; removing the
    partner whenever the partner is eligible would empty the set. *)
Lemma determine_declarer_candidates_keeps_first_bidders :
  (λ d : gmap string (gset Z), d !! "S")
    <$> determine_declarer_candidates "1S 2S 3S 4S P P P" 0 = Ok (Some {[0; 1]}) ∧
  (λ d : gmap string (gset Z), d !! "S")
    <$> claimed_declarer_candidates "1S 2S 3S 4S P P P" 0 = Ok (Some ∅) ∧
  determine_declarer_candidates "1S 2S 3S 4S P P P" 0
    ≠ claimed_declarer_candidates "1S 2S 3S 4S P P P" 0.
Proof.
  split; [by vm_compute|]. split; [by vm_compute|].
  intros Heq.
  apply (f_equal (fmap (λ d : gmap string (gset Z), d !! "S"))) in Heq.
  vm_compute in Heq. discriminate Heq.
Qed.

(** ** Token normalizer and auction validator *)

(** [test_get_cleaned_bids]. *)
Example test_get_cleaned_bids :
  get_cleaned_bids "P 1C 2H 3s 4D X xX 7N p P P"
    = ["P";"1C";"2H";"3S";"4D";"X";"R";"7N";"P";"P";"P"] ∧
  get_cleaned_bids "1C! =0=6NT =0=7N =0=X XX! P! P P"
    = ["1C";"6N";"7N";"X";"R";"P";"P";"P"] ∧
  get_cleaned_bids "PASS PAS S3 DBL REDBL 4NT XXX AP"
    = ["P";"P";"3S";"X";"R";"4N";"X";"R";"P";"P";"P"] ∧
  get_cleaned_bids "1NTPASS P XPASS 2H2NT X XXPASS PASS5S XXX 7NT"
    = ["1N";"P";"P";"X";"P";"2H";"2N";"X";"R";"P";"P";"5S";"X";"R";"7N"] ∧
  get_cleaned_bids "1NT! =6= ?? !! =:= P =9= 34 Pc P ! 1.0 $1 % P"
    = ["1N";"P";"P";"P"] ∧
  get_cleaned_bids "" = [].
Proof. repeat split; vm_compute; reflexivity. Qed.

(** [test_validate_auction]. *)
Example test_validate_auction :
  validate_auction "P P P 1N X R 2N P P P" = Ok "P P P 1N X R 2N P P P" ∧
  validate_auction "1C 2S 3H P P P 4H 5C P P P" = Raise PassError ∧
  validate_auction "P P P 6H 7N P P" = Raise PassError ∧
  validate_auction "1C 2S 2H P P P" = Raise ContractBidError ∧
  validate_auction "1C 2H 1S P P P" = Raise ContractBidError ∧
  validate_auction "4H P P 4H X R P P P" = Raise ContractBidError ∧
  validate_auction "P P X 1C 7N P P P" = Raise DoubleBidError ∧
  validate_auction "P P P R 1C 7N P P P" = Raise RedoubleBidError ∧
  validate_auction "1C P X P P P" = Raise DoubleBidError ∧
  validate_auction "3N X P R P P P" = Raise RedoubleBidError ∧
  validate_auction "7C X P X P P P" = Raise DoubleBidError ∧
  validate_auction "7C X R X P P P" = Raise DoubleBidError ∧
  validate_auction "7C X R P R P P P" = Raise RedoubleBidError ∧
  validate_auction "7C P R P P P" = Raise RedoubleBidError ∧
  validate_auction "" = Raise MissingAuctionError.
Proof. repeat split; vm_compute; reflexivity. Qed.

Lemma foldl_app_concat {A B} (f : B → list A) (l : list B) (init : list A) :
  foldl (λ acc b, acc ++ f b) init l = init ++ concat (f <$> l).
Proof.
  revert init. induction l as [|b l IH]; intros init; cbn.
  - by rewrite app_nil_r.
  - rewrite IH. by rewrite app_assoc.
Qed.

Lemma findall_fuel_alternatives fuel alts s :
  Forall (λ a, a ∈ alts) (findall_fuel fuel alts s).
Proof.
  revert s. induction fuel as [|fuel IH]; intros s; cbn; [constructor|].
  destruct s as [|c s']; [constructor|].
  destruct (List.find _ alts) as [a|] eqn:Hfind; [|apply IH].
  constructor; [|apply IH].
  apply List.find_some in Hfind as [Hin _]. by apply list_elem_of_In.
Qed.

(** Every token that [get_cleaned_bids] returns is a legal bid token. *)
Lemma clean_bid_valid bid : Forall (λ t, t ∈ VALID_BIDS) (clean_bid bid).
Proof.
  unfold clean_bid.
  set (b := Py.lstrip "=0=" (Py.rstrip "!" (Py.upper bid))). clearbody b.
  destruct (Py.mem b VALID_BIDS) eqn:Hmem.
  - constructor; [|constructor]. by apply bool_decide_eq_true in Hmem.
  - destruct (NORMALIZE_BID !! b) as [v|] eqn:Hv.
    + apply elem_of_list_to_map_2 in Hv.
      repeat (apply elem_of_cons in Hv as [[= -> ->]|Hv];
              [by repeat (constructor; [compute_done|])|]).
      by apply elem_of_nil in Hv.
    + apply Forall_fmap. eapply Forall_impl; [apply findall_fuel_alternatives|].
      intros a Ha. cbn.
      assert (forallb (λ a, bool_decide (default a (NORMALIZE_BID !! a) ∈ VALID_BIDS))
                BID_ALTERNATIVES = true) as Hall by (vm_compute; reflexivity).
      apply list_elem_of_In in Ha.
      apply (proj1 (forallb_forall _ _) Hall), bool_decide_eq_true in Ha. done.
Qed.

Lemma get_cleaned_bids_valid auction :
  Forall (λ t, t ∈ VALID_BIDS) (get_cleaned_bids auction).
Proof.
  unfold get_cleaned_bids. rewrite foldl_app_concat. cbn [app].
  apply Forall_concat, Forall_fmap, Forall_forall. intros bid _.
  apply clean_bid_valid.
Qed.

Lemma valid_bid_clean_token t : t ∈ VALID_BIDS → clean_token t = true.
Proof.
  assert (forallb clean_token VALID_BIDS = true) as Hall by (vm_compute; reflexivity).
  intros Hin%list_elem_of_In. by apply (proj1 (forallb_forall _ _) Hall).
Qed.

Lemma get_cleaned_bids_clean auction :
  Forall (λ t, clean_token t = true) (get_cleaned_bids auction).
Proof.
  eapply Forall_impl; [apply get_cleaned_bids_valid|].
  intros t. apply valid_bid_clean_token.
Qed.

Lemma clean_token_shape t :
  clean_token t = true →
  (∃ c, t = String c EmptyString) ∨
  (∃ c1 c2, t = String c1 (String c2 EmptyString) ∧ c1 ≠ "P"%char ∧ c2 ≠ "P"%char).
Proof.
  destruct t as [|c1 [|c2 [|c3 t]]]; cbn; try done.
  - eauto.
  - intros [H1%negb_true_iff%bool_decide_eq_false
             H2%negb_true_iff%bool_decide_eq_false]%andb_true_iff. eauto 10.
Qed.

Lemma join_cons_cons t u rest :
  Py.join " " (t :: u :: rest) = t +:+ " " +:+ Py.join " " (u :: rest).
Proof. reflexivity. Qed.

Ltac token_shapes :=
  repeat match goal with
  | H : Forall _ (_ :: _) |- _ => apply Forall_cons in H as [? H]
  | H : clean_token ?t = true |- _ =>
      apply clean_token_shape in H as [[? ->]|(? & ? & -> & ? & ?)]
  end.

(** On a cleaned auction, the text ["P P P"] is found at the start of the
    joined string exactly when the first three tokens are passes. *)
Lemma startswith_join_three_passes bids :
  Forall (λ t, clean_token t = true) bids →
  Py.startswith "P P P" (Py.join " " bids) = three_passes bids.
Proof.
  intros Hclean. unfold three_passes, THREE_PASSES.
  destruct bids as [|t [|u [|v rest]]]; token_shapes;
    try destruct rest; cbv [Py.join String.concat String.append]; cbn;
    repeat case_bool_decide; simplify_eq; cbn; try done.
Qed.

Lemma string_length_app (a b : string) :
  String.length (a +:+ b) = (String.length a + String.length b)%nat.
Proof.
  induction a as [|c a IH]; [done|].
  change (String c a +:+ b) with (String c (a +:+ b)). cbn. by rewrite IH.
Qed.

Lemma find_from_succ sub c s :
  Py.find_from sub 1 (String c s) = S <$> Py.find_from sub 0 s.
Proof. destruct s; reflexivity. Qed.

Lemma find_from_zero sub c s :
  Py.find_from sub 0 (String c s) =
  if Py.startswith sub (String c s) then Some O
  else Py.find_from sub 1 (String c s).
Proof. rewrite find_from_succ. reflexivity. Qed.

(** Searching from index 1 skips the first token and its separator: no
    occurrence of ["P P P"] can start inside a token or on a space. *)
Lemma find_from_one_join t u rest :
  clean_token t = true →
  Py.find_from "P P P" 1 (Py.join " " (t :: u :: rest)) =
  (λ k, String.length t + 1 + k)%nat
    <$> Py.find_from "P P P" 0 (Py.join " " (u :: rest)).
Proof.
  intros Ht. rewrite join_cons_cons.
  generalize (Py.join " " (u :: rest)). intros j.
  apply clean_token_shape in Ht as [[c ->]|(c1 & c2 & -> & H1 & H2)];
    cbv [String.append]; rewrite find_from_succ.
  - rewrite find_from_zero, find_from_succ. cbn [Py.startswith].
    rewrite bool_decide_eq_false_2 by done. cbn [andb].
    destruct (Py.find_from "P P P" 0 j); reflexivity.
  - rewrite find_from_zero, find_from_succ. cbn [Py.startswith].
    rewrite (bool_decide_eq_false_2 ("P"%char = c2)) by done. cbn [andb].
    rewrite find_from_zero, find_from_succ. cbn [Py.startswith].
    rewrite bool_decide_eq_false_2 by done. cbn [andb].
    destruct (Py.find_from "P P P" 0 j); reflexivity.
Qed.

Lemma find_from_single_token start t :
  clean_token t = true → Py.find_from "P P P" start t = None.
Proof.
  intros [[c ->]|(c1 & c2 & -> & _ & _)]%clean_token_shape;
    destruct start as [|[|[|start]]]; cbn;
    repeat case_bool_decide; cbn; done.
Qed.

Lemma join_length_cons_cons t u rest :
  String.length (Py.join " " (t :: u :: rest)) =
  (String.length t + 1 + String.length (Py.join " " (u :: rest)))%nat.
Proof. rewrite join_cons_cons, !string_length_app. cbn. lia. Qed.

(** The first occurrence of ["P P P"] in the joined string ends the
    string exactly when the first run of three passes among the tokens is
    made of the last three. *)
Lemma find_join_passes_only_at_end bids :
  Forall (λ t, clean_token t = true) bids →
  (∃ k, Py.find_from "P P P" 0 (Py.join " " bids) = Some k ∧
        (k + 5 = String.length (Py.join " " bids))%nat)
  ↔ passes_only_at_end bids = true.
Proof.
  induction bids as [|t [|u rest] IH]; intros Hclean.
  - cbn. split; [intros (k & Hk & _); discriminate | discriminate].
  - apply Forall_cons in Hclean as [Ht _].
    change (Py.join " " [t]) with t. rewrite find_from_single_token by done.
    cbn. assert (three_passes [t] = false) as ->
      by (by apply bool_decide_eq_false_2).
    split; [intros (k & Hk & _); discriminate | discriminate].
  - pose proof (startswith_join_three_passes _ Hclean) as Hstart.
    pose proof Hclean as Hclean'.
    apply Forall_cons in Hclean' as [Ht Hrest]. specialize (IH Hrest).
    change (passes_only_at_end (t :: u :: rest))
      with (if three_passes (t :: u :: rest)
            then bool_decide (length (t :: u :: rest) = 3%nat)
            else passes_only_at_end (u :: rest)).
    rewrite join_length_cons_cons.
    destruct (Py.join " " (t :: u :: rest)) as [|c j] eqn:Hj.
    { rewrite join_cons_cons in Hj. destruct t; [done|discriminate Hj]. }
    rewrite find_from_zero, Hstart, <-Hj.
    destruct (three_passes (t :: u :: rest)) eqn:Hthree.
    + unfold three_passes, THREE_PASSES in Hthree.
      apply bool_decide_eq_true in Hthree.
      destruct rest as [|v rest]; [discriminate Hthree|].
      cbn in Hthree. injection Hthree as -> -> ->.
      rewrite bool_decide_eq_true. split.
      * intros (k & [= <-] & Hlen). destruct rest as [|w rest]; [done|].
        rewrite !join_length_cons_cons in Hlen. cbn in Hlen. lia.
      * intros Hlen. exists O. split; [done|].
        destruct rest; [reflexivity|discriminate Hlen].
    + rewrite <-IH. clear IH. rewrite find_from_one_join by done.
      destruct (Py.find_from "P P P" 0 (Py.join " " (u :: rest))) as [k'|]; cbn.
      * split; intros (k & [= <-] & Hlen); eexists; (split; [done|lia]).
      * split; intros (k & [=] & _).
Qed.

Lemma passes_only_at_end_spec rest :
  passes_only_at_end rest = true ↔
  ∃ front, rest = front ++ THREE_PASSES ∧
    ∀ i, (i < length front)%nat → take 3 (drop i rest) ≠ THREE_PASSES.
Proof.
  induction rest as [|t rest IH].
  - split; [discriminate|]. intros (front & Heq & _).
    by destruct front.
  - cbn [passes_only_at_end].
    destruct (three_passes (t :: rest)) eqn:Hthree;
      unfold three_passes in Hthree.
    + apply bool_decide_eq_true in Hthree. rewrite bool_decide_eq_true. split.
      * intros Hlen. exists []. split; [|cbn; lia].
        rewrite <-Hthree. cbn [app]. symmetry. apply take_ge. lia.
      * intros (front & Heq & Hfront). destruct front as [|f front].
        -- by rewrite Heq.
        -- exfalso. apply (Hfront O); [cbn; lia|]. exact Hthree.
    + apply bool_decide_eq_false in Hthree. rewrite IH. split.
      * intros (front & -> & Hfront). exists (t :: front). split; [done|].
        intros [|i] Hi; [exact Hthree|]. apply Hfront. cbn in Hi. lia.
      * intros (front & Heq & Hfront). destruct front as [|f front].
        { cbn in Heq. by rewrite Heq in Hthree. }
        injection Heq as -> ->. exists front. split; [done|].
        intros i Hi. apply (Hfront (S i)). cbn. lia.
Qed.

Lemma pass_rule_spec bids :
  pass_rule bids ↔ ∃ first rest, bids = first :: rest ∧ passes_only_at_end rest = true.
Proof.
  unfold pass_rule. split.
  - intros (first & front & -> & Hfront). exists first, (front ++ THREE_PASSES).
    split; [done|]. apply passes_only_at_end_spec. exists front. split; [done|].
    intros i Hi. apply (Hfront (S i)). lia.
  - intros (first & rest & -> & (front & -> & Hfront)%passes_only_at_end_spec).
    exists first, front. split; [done|].
    intros [|i] Hi; [lia|]. apply Hfront. lia.
Qed.

(** The test of [validate_auction] on the joined string, read on the
    tokens.  The length 4 is left out: there [find] returns -1, which is
    also the length minus 5. *)
Lemma pass_condition_spec bids :
  Forall (λ t, clean_token t = true) bids →
  String.length (Py.join " " bids) ≠ 4%nat →
  (Py.find "P P P" 1 (Py.join " " bids) =? Py.len (Py.join " " bids) - 5) = true
  ↔ pass_rule bids.
Proof.
  intros Hclean Hlen. rewrite pass_rule_spec, Z.eqb_eq. unfold Py.find, Py.len.
  destruct bids as [|t [|u rest]].
  - cbn. split; [lia|]. by intros (? & ? & ? & _).
  - apply Forall_cons in Hclean as [Ht _].
    change (Py.join " " [t]) with t. rewrite find_from_single_token by done.
    split.
    + apply clean_token_shape in Ht as [[c ->]|(c1 & c2 & -> & _)]; cbn; lia.
    + intros (first & rest & [= <- <-] & Hrest). discriminate Hrest.
  - apply Forall_cons in Hclean as [Ht Hrest].
    rewrite find_from_one_join by done.
    rewrite join_length_cons_cons in Hlen |- *.
    pose proof (find_join_passes_only_at_end _ Hrest) as Hfind.
    destruct (Py.find_from "P P P" 0 (Py.join " " (u :: rest))) as [k|];
      cbn [fmap option_fmap option_map].
    + split.
      * intros Hk. exists t, (u :: rest). split; [done|]. apply Hfind.
        exists k. split; [done|]. lia.
      * intros (first & rest' & [= <- <-] & Hrest').
        apply Hfind in Hrest' as (k' & [= <-] & Hk'). lia.
    + split; [lia|].
      intros (first & rest' & [= <- <-] & Hrest').
      apply Hfind in Hrest' as (k' & [=] & _).
Qed.

Lemma for_each_raise {S A} (body : S → A → result S) st l e :
  for_each body st l = Raise e → ∃ st' x, x ∈ l ∧ body st' x = Raise e.
Proof.
  revert st. induction l as [|x l IH]; intros st; cbn; [discriminate|].
  destruct (body st x) as [st1|e1] eqn:Hbody; cbn.
  - intros (st' & y & Hy & Hraise)%IH. exists st', y. split; [by right|done].
  - intros [= ->]. exists st, x. split; [by left|done].
Qed.

Lemma check_increasing_raise contract_bids e :
  check_increasing contract_bids = Raise e → e = ContractBidError ∨ e = ValueError.
Proof.
  intros (st & bid & _ & Hbody)%for_each_raise. cbv beta in Hbody.
  destruct (Py.list_index bid ORDERED_CONTRACT_BIDS) as [i|];
    cbn [of_option mbind result_bind] in Hbody.
  - destruct (Z.of_nat i <=? st); naive_solver.
  - naive_solver.
Qed.

Lemma check_run_raise n run e :
  check_run n run = Raise e → e = DoubleBidError ∨ e = RedoubleBidError.
Proof.
  intros ([[pos doubled] redoubled] & bid & _ & Hbody)%for_each_raise.
  cbn in Hbody. repeat case_match; naive_solver.
Qed.

Lemma check_doubles_raise runs e :
  check_doubles runs = Raise e → e = DoubleBidError ∨ e = RedoubleBidError.
Proof.
  intros (n & run & _ & Hbody)%for_each_raise. cbn in Hbody.
  destruct (check_run n run) as [?|e'] eqn:Hrun; cbn in Hbody; [discriminate|].
  injection Hbody as ->. by eapply check_run_raise.
Qed.

(** [validate_auction] raises [PassError] exactly when the auction is not
    empty and the test on the joined string fails. *)
Lemma validate_auction_PassError auction :
  validate_auction auction = Raise PassError ↔
  auction ≠ "" ∧
  (Py.find "P P P" 1 (Py.join " " (get_cleaned_bids auction))
   =? Py.len (Py.join " " (get_cleaned_bids auction)) - 5) = false.
Proof.
  unfold validate_auction. destruct auction as [|c auction]; cbn [Py.truthy negb].
  { split; [discriminate|]. by intros [? _]. }
  destruct (_ =? _); cbn [negb].
  - split; [|by intros [_ ?]].
    destruct (separate_bids _) as [contract_bids non_contract_bids].
    destruct (check_increasing contract_bids) eqn:Hinc; cbn.
    + destruct (check_doubles non_contract_bids) eqn:Hdbl; cbn; [discriminate|].
      intros [= ->]. apply check_doubles_raise in Hdbl. naive_solver.
    + intros [= ->]. apply check_increasing_raise in Hinc. naive_solver.
  - done.
Qed.

Lemma pass_rule_all_pass n : pass_rule (replicate n "P") → n = 4%nat.
Proof.
  intros (first & front & Heq & Hfront).
  assert (n = (length front + 4)%nat) as ->.
  { apply (f_equal length) in Heq. rewrite length_replicate in Heq.
    cbn in Heq. rewrite length_app in Heq. cbn in Heq. lia. }
  destruct front as [|f front]; [done|]. exfalso.
  apply (Hfront 1%nat); [cbn; lia|].
  rewrite drop_replicate, take_replicate.
  rewrite Nat.min_l by (cbn [length]; lia). reflexivity.
Qed.

(** C1, as the code has it: for every non-empty raw auction whose cleaned
    auction is not exactly four characters long, [validate_auction] raises
    [PassError] unless the cleaned token sequence has at least four
    tokens, ends in three passes, and these last three are the only three
    consecutive passes that start at or after position 1.  Among the
    auctions that clean to passes only, the one of four passes is accepted
    and no other is. *)
Theorem validate_auction_pass_rule (auction : string) :
  auction ≠ "" →
  String.length (Py.join " " (get_cleaned_bids auction)) ≠ 4%nat →
  (validate_auction auction = Raise PassError
   ↔ ¬ pass_rule (get_cleaned_bids auction)) ∧
  (∀ n, get_cleaned_bids auction = replicate n "P" →
        validate_auction auction = Ok (Py.join " " (replicate n "P"))
        ↔ n = 4%nat).
Proof.
  intros Hne Hlen.
  pose proof (pass_condition_spec _ (get_cleaned_bids_clean auction) Hlen) as Hcond.
  split.
  - rewrite validate_auction_PassError, <-Hcond.
    destruct (_ =? _); naive_solver.
  - intros n Hbids. split.
    + intros Hok. apply pass_rule_all_pass. rewrite <-Hbids. apply Hcond.
      destruct (_ =? _) eqn:Htest; [done|].
      assert (validate_auction auction = Raise PassError) as Hraise
        by (by apply validate_auction_PassError).
      rewrite Hraise in Hok. discriminate Hok.
    + intros ->. unfold validate_auction.
      destruct auction as [|c auction]; [done|]. cbn [Py.truthy negb].
      rewrite Hbids. by vm_compute.
Qed.

Lemma validate_auction_pass_rule_witness :
  "1C P P P" ≠ "" ∧
  String.length (Py.join " " (get_cleaned_bids "1C P P P")) ≠ 4%nat ∧
  (validate_auction "1C P P P" = Raise PassError
   ↔ ¬ pass_rule (get_cleaned_bids "1C P P P")) ∧
  (∀ n, get_cleaned_bids "1C P P P" = replicate n "P" →
        validate_auction "1C P P P" = Ok (Py.join " " (replicate n "P"))
        ↔ n = 4%nat).
Proof.
  split; [done|]. split; [by vm_compute|].
  apply (validate_auction_pass_rule "1C P P P"); [done|by vm_compute].
Defined.

(** C1, as the claim words it, fails: the auction of exactly three passes
    is not accepted, and neither is the one of five; the start-of-auction
    exemption only keeps the first three passes from counting as a run. *)
Lemma validate_auction_three_passes_rejected :
  get_cleaned_bids "P P P" = ["P"; "P"; "P"] ∧
  validate_auction "P P P" = Raise PassError ∧
  validate_auction "P P P P P" = Raise PassError.
Proof. repeat split; vm_compute; reflexivity. Qed.

(** The four-pass auction is the passed-out one, and a first round of
    three passes before the bidding is fine. *)
Example validate_auction_passed_out :
  validate_auction "P P P P" = Ok "P P P P" ∧
  validate_auction "P P P 1C P P P" = Ok "P P P 1C P P P".
Proof. repeat split; vm_compute; reflexivity. Qed.

(** Left out of C1 above: a cleaned auction of exactly four characters
    passes the test although it holds no three passes, because [find]
    returns -1 and the length minus 5 is -1 as well. *)
Example validate_auction_four_characters :
  validate_auction "1C P" = Ok "1C P" ∧
  validate_auction "1C X" = Ok "1C X".
Proof. repeat split; vm_compute; reflexivity. Qed.

(** ** Deal validator *)

(** [test_validate_deal]. *)
Example test_validate_deal :
  validate_deal "N:AK75.54.987653.A Q.AT983.42.JT753 642.KQJ7.AQJ.962 JT983.62.KT.KQ84"
  = Ok [["SA";"SK";"S7";"S5";"H5";"H4";"D9";"D8";"D7";"D6";"D5";"D3";"CA"];
        ["SQ";"HA";"HT";"H9";"H8";"H3";"D4";"D2";"CJ";"CT";"C7";"C5";"C3"];
        ["S6";"S4";"S2";"HK";"HQ";"HJ";"H7";"DA";"DQ";"DJ";"C9";"C6";"C2"];
        ["SJ";"ST";"S9";"S8";"S3";"H6";"H2";"DK";"DT";"CK";"CQ";"C8";"C4"]] ∧
  validate_deal "" = Raise MissingDealError ∧
  validate_deal "N:AK75.54.987653. Q.AT983.42.AJT753 642.KQJ7.AQJ.962 JT983.62.KT.KQ84"
  = Raise UnbalancedDealError ∧
  validate_deal "N:AK75.54.987653.L Q.AT983.42.JT753 642.KQJ7.AQJ.962 JT983.62.KT.KQ84"
  = Raise CardError ∧
  validate_deal "N:AK75.542.987653. Q.AT983.42.JT753 642.KQJ7.AQJ.962 JT983.62.KT.KQ84"
  = Raise CardError.
Proof. repeat split; vm_compute; reflexivity. Qed.

Example validate_deal_other_dealer :
  validate_deal "S:75.K6.KQ9754.T73 Q4.J843.J862.Q92 92.AQ752.AT3.K85 AKJT863.T9..AJ64"
  = Ok [["S9";"S2";"HA";"HQ";"H7";"H5";"H2";"DA";"DT";"D3";"CK";"C8";"C5"];
        ["SA";"SK";"SJ";"ST";"S8";"S6";"S3";"HT";"H9";"CA";"CJ";"C6";"C4"];
        ["S7";"S5";"HK";"H6";"DK";"DQ";"D9";"D7";"D5";"D4";"CT";"C7";"C3"];
        ["SQ";"S4";"HJ";"H8";"H4";"H3";"DJ";"D8";"D6";"D2";"CQ";"C9";"C2"]].
Proof. vm_compute; reflexivity. Qed.

Lemma for_each_inv {S A} (P : S → Prop) (body : S → A → result S) l st st' :
  (∀ s x s', x ∈ l → P s → body s x = Ok s' → P s') →
  P st → for_each body st l = Ok st' → P st'.
Proof.
  revert st. induction l as [|x l IH]; intros st Hbody HP; cbn.
  - by intros [= <-].
  - destruct (body st x) as [s1|] eqn:Hx; cbn; [|discriminate].
    apply IH.
    + intros s y s' Hy. apply Hbody. by right.
    + eapply Hbody; [by left|done..].
Qed.

Lemma for_each_count {S A} (P : S → Prop) (size : S → nat) (w : A → nat)
    (body : S → A → result S) l st st' :
  (∀ s x s', P s → body s x = Ok s' → P s' ∧ size s' = (size s + w x)%nat) →
  P st → for_each body st l = Ok st' →
  P st' ∧ size st' = (size st + sum_list (w <$> l))%nat.
Proof.
  intros Hbody. revert st. induction l as [|x l IH]; intros st HP; cbn.
  - intros [= <-]. split; [done|lia].
  - destruct (body st x) as [s1|] eqn:Hx; cbn; [|discriminate].
    destruct (Hbody _ _ _ HP Hx) as [HP1 Hsize].
    intros [HP' Hrest]%IH; [|done]. split; [done|]. rewrite Hrest, Hsize. lia.
Qed.

Lemma list_remove_Permutation {A} `{EqDecision A} (x : A) l l' :
  Py.list_remove x l = Some l' → l ≡ₚ x :: l'.
Proof.
  revert l'. induction l as [|y l IH]; intros l'; cbn; [discriminate|].
  destruct (decide (x = y)) as [->|Hne].
  - by intros [= ->].
  - destruct (Py.list_remove x l) as [l1|]; cbn; [|discriminate].
    intros [= <-]. rewrite (IH l1 eq_refl). apply Permutation_swap.
Qed.

Lemma concat_alter_snoc {A} (c : A) i (hands : list (list A)) :
  (i < length hands)%nat →
  concat (alter (λ hand, hand ++ [c]) i hands) ≡ₚ c :: concat hands.
Proof.
  revert i. induction hands as [|h hands IH]; intros i Hi; cbn in Hi; [lia|].
  destruct i as [|i]; cbn.
  - solve_Permutation.
  - rewrite IH by lia. solve_Permutation.
Qed.

Lemma concat_zip_with_insert (suits : list string) deck i suit ranks ranks' card :
  suits !! i = Some suit → deck !! i = Some ranks → ranks ≡ₚ card :: ranks' →
  concat (zip_with (λ suit ranks, (String.app suit) <$> ranks) suits deck)
  ≡ₚ (suit +:+ card)
     :: concat (zip_with (λ suit ranks, (String.app suit) <$> ranks) suits
                  (<[i := ranks']> deck)).
Proof.
  revert deck i. induction suits as [|s suits IH]; intros deck i; [done|].
  destruct deck as [|d deck]; [done|]. destruct i as [|i]; cbn.
  - intros [= ->] [= ->] ->. cbn. done.
  - intros Hs Hd Hperm. rewrite (IH _ _ Hs Hd Hperm). solve_Permutation.
Qed.

(** Dealing one card keeps the invariant and gives the seat one card. *)
Lemma deal_card_inv suit_pos seat st card st' :
  (seat < 4)%nat → deal_inv st → deal_card suit_pos seat st card = Ok st' →
  deal_inv st' ∧
  ∀ j, hand_size j st' = (hand_size j st + if decide (j = seat) then 1 else 0)%nat.
Proof.
  intros Hseat [Hlen Hperm]. unfold deal_card.
  destruct (st.1 !! suit_pos) as [ranks|] eqn:Hranks; cbn; [|discriminate].
  destruct (Py.list_remove card ranks) as [ranks'|] eqn:Hremove; cbn; [|discriminate].
  destruct (SUITS !! suit_pos) as [suit|] eqn:Hsuit; cbn; [|discriminate].
  intros [= <-]. split; [split|]; cbn [fst snd].
  - by rewrite length_alter.
  - rewrite concat_alter_snoc by lia. rewrite <-Hperm. unfold deck_cards.
    rewrite (concat_zip_with_insert SUITS (st.1) suit_pos suit ranks ranks' card);
      [|done|done|by apply list_remove_Permutation].
    solve_Permutation.
  - intros j. unfold hand_size. cbn [snd]. rewrite list_lookup_alter.
    destruct (decide (j = seat)) as [->|Hne].
    + rewrite decide_True by done.
      destruct (st.2 !! seat) as [h|] eqn:Hh; cbn.
      * rewrite length_app. cbn. lia.
      * apply lookup_ge_None in Hh. lia.
    + rewrite decide_False by done. lia.
Qed.

Lemma length_chars s : length (Py.chars s) = String.length s.
Proof. induction s as [|c s IH]; cbn; [done|]. by rewrite IH. Qed.

Lemma sum_list_fmap_snd_enumerate {A} (f : A → nat) (l : list A) :
  sum_list ((λ entry, f entry.2) <$> Py.enumerate l) = sum_list (f <$> l).
Proof.
  unfold Py.enumerate.
  trans (sum_list (f <$> (snd <$> zip (seq 0 (length l)) l))).
  - by rewrite <-list_fmap_compose.
  - rewrite snd_zip; [done|]. by rewrite length_seq.
Qed.

Lemma deal_suit_inv seat st entry st' (j : nat) :
  (seat < 4)%nat → deal_inv st → deal_suit seat st entry = Ok st' →
  deal_inv st' ∧
  hand_size j st' =
  (hand_size j st + if decide (j = seat) then String.length entry.2 else 0)%nat.
Proof.
  intros Hseat Hinv Hloop. unfold deal_suit in Hloop.
  apply (for_each_count deal_inv (hand_size j)
           (λ _, if decide (j = seat) then 1 else 0)%nat) in Hloop.
  - destruct Hloop as [Hinv' ->]. split; [done|]. f_equal.
    rewrite sum_list_fmap_const, length_chars. case_decide; lia.
  - intros s x s' Hs Hx. destruct (deal_card_inv _ _ _ _ _ Hseat Hs Hx). eauto.
  - done.
Qed.

(** Dealing one hand keeps the invariant and gives the seat 13 cards. *)
Lemma deal_hand_inv player_offset st entry st' (j : nat) :
  deal_inv st → deal_hand player_offset st entry = Ok st' →
  deal_inv st' ∧
  hand_size j st' =
  (hand_size j st
   + if decide (j = ((entry.1 + player_offset) `mod` 4)%nat) then 13 else 0)%nat.
Proof.
  intros Hinv. unfold deal_hand.
  destruct (_ =? 13)%nat eqn:Hsum; cbn [negb]; [|discriminate].
  apply Nat.eqb_eq in Hsum. intros Hloop.
  set (seat := ((entry.1 + player_offset) `mod` 4)%nat) in *.
  assert (seat < 4)%nat as Hseat by (apply Nat.mod_upper_bound; lia).
  apply (for_each_count deal_inv (hand_size j)
           (λ e, if decide (j = seat) then String.length e.2 else 0)%nat) in Hloop.
  - destruct Hloop as [Hinv' ->]. split; [done|]. f_equal.
    case_decide.
    + by rewrite (sum_list_fmap_snd_enumerate String.length).
    + rewrite sum_list_fmap_const. lia.
  - intros s x s' Hs Hx. by apply deal_suit_inv.
  - done.
Qed.

Lemma deal_inv_initial : deal_inv (replicate 4 RANKS, replicate 4 []).
Proof. split; [done|]. by vm_compute. Qed.

Lemma NoDup_DECK : NoDup DECK.
Proof. compute_done. Qed.

Lemma length_DECK : length DECK = 52%nat.
Proof. reflexivity. Qed.

Lemma list_index_lt {A} `{EqDecision A} (x : A) l i :
  Py.list_index x l = Some i → (i < length l)%nat.
Proof.
  revert i. induction l as [|y l IH]; intros i; cbn; [discriminate|].
  destruct (decide (x = y)); [intros [= <-]; lia|].
  destruct (Py.list_index x l) as [k|]; cbn; [|discriminate].
  intros [= <-]. specialize (IH k eq_refl). lia.
Qed.

(** Whatever the number of hands listed, a deal that [validate_deal]
    accepts never holds a card twice, and holds cards of the deck only. *)

(** Simplification of the result monad only. *)
Ltac rsimpl :=
  cbn [mbind result_bind fmap result_fmap mret result_ret of_option try_except].

Lemma validate_deal_no_duplicates (deal : string) (hands : list (list string)) :
  validate_deal deal = Ok hands →
  NoDup (concat hands) ∧ concat hands ⊆ DECK.
Proof.
  unfold validate_deal. destruct (Py.truthy deal); cbn [negb]; [|discriminate].
  destruct (Py.item deal 0) as [seat|]; rsimpl; [|discriminate].
  destruct (Py.list_index seat ORDER) as [o|]; rsimpl; [|discriminate].
  destruct (for_each _ _ _) as [st'|] eqn:Hloop; rsimpl; [|discriminate].
  intros [= <-].
  apply (for_each_inv deal_inv) in Hloop as [_ Hperm].
  - pose proof NoDup_DECK as Hnodup. rewrite <-Hperm in Hnodup.
    apply NoDup_app in Hnodup as [Hnodup _]. split; [done|].
    intros x Hx. rewrite <-Hperm. apply elem_of_app. by left.
  - intros s x s' _ Hs Hx. by apply (deal_hand_inv o s x s' O).
  - apply deal_inv_initial.
Qed.

(** C2, as the code has it: for every deal string that lists exactly four
    hands after the seat prefix and on which [validate_deal] returns, the
    four returned hands hold 13 cards each and their concatenation is the
    52-card deck, every card once. *)
Theorem validate_deal_full_deck (deal : string) (hands : list (list string)) :
  validate_deal deal = Ok hands →
  length (Py.split " " (Py.drop 2 deal)) = 4%nat →
  concat hands ≡ₚ DECK ∧ NoDup (concat hands) ∧
  length hands = 4%nat ∧ Forall (λ hand, length hand = 13%nat) hands.
Proof.
  intros Hok Hfour. pose proof (validate_deal_no_duplicates _ _ Hok) as [Hnodup _].
  revert Hok. unfold validate_deal.
  destruct (Py.truthy deal); cbn [negb]; [|discriminate].
  destruct (Py.item deal 0) as [seat|]; rsimpl; [|discriminate].
  destruct (Py.list_index seat ORDER) as [o|] eqn:Ho; rsimpl; [|discriminate].
  apply list_index_lt in Ho. cbn in Ho.
  destruct (for_each _ _ _) as [st'|] eqn:Hloop; rsimpl; [|discriminate].
  intros [= <-].
  assert (∀ j, (j < 4)%nat → deal_inv st' ∧ hand_size j st' = 13%nat) as Hsizes.
  { intros j Hj.
    apply (for_each_count deal_inv (hand_size j)
             (λ e, if decide (j = ((e.1 + o) `mod` 4)%nat) then 13 else 0)%nat)
      in Hloop.
    - destruct Hloop as [Hinv ->]. split; [done|].
      destruct (Py.split " " (Py.drop 2 deal)) as [|h0 [|h1 [|h2 [|h3 [|]]]]];
        try discriminate Hfour.
      destruct o as [|[|[|[|]]]]; try lia;
        destruct j as [|[|[|[|]]]]; try lia; reflexivity.
    - intros s x s' Hs Hx. by apply deal_hand_inv.
    - apply deal_inv_initial. }
  destruct (Hsizes O) as [[Hlen Hperm] H0]; [lia|].
  destruct (Hsizes 1%nat) as [_ H1]; [lia|].
  destruct (Hsizes 2%nat) as [_ H2]; [lia|].
  destruct (Hsizes 3%nat) as [_ H3]; [lia|].
  destruct st' as [deck' hands']. cbn [fst snd] in *.
  destruct hands' as [|a [|b [|c [|d [|]]]]]; try discriminate Hlen.
  unfold hand_size in H0, H1, H2, H3. cbn in H0, H1, H2, H3.
  assert (deck_cards deck' = []) as Hdeck.
  { apply nil_length_inv. apply Permutation_length in Hperm.
    rewrite length_app, length_DECK in Hperm. cbn [concat] in Hperm.
    rewrite !length_app in Hperm. cbn [length] in Hperm. lia. }
  rewrite Hdeck, app_nil_r in Hperm.
  split; [done|]. split; [done|]. split; [done|].
  repeat constructor; done.
Qed.

Lemma validate_deal_full_deck_witness :
  let deal := "N:AK75.54.987653.A Q.AT983.42.JT753 642.KQJ7.AQJ.962 JT983.62.KT.KQ84" in
  let hands :=
    [["SA";"SK";"S7";"S5";"H5";"H4";"D9";"D8";"D7";"D6";"D5";"D3";"CA"];
     ["SQ";"HA";"HT";"H9";"H8";"H3";"D4";"D2";"CJ";"CT";"C7";"C5";"C3"];
     ["S6";"S4";"S2";"HK";"HQ";"HJ";"H7";"DA";"DQ";"DJ";"C9";"C6";"C2"];
     ["SJ";"ST";"S9";"S8";"S3";"H6";"H2";"DK";"DT";"CK";"CQ";"C8";"C4"]] in
  validate_deal deal = Ok hands ∧
  length (Py.split " " (Py.drop 2 deal)) = 4%nat ∧
  concat hands ≡ₚ DECK ∧ NoDup (concat hands) ∧
  length hands = 4%nat ∧ Forall (λ hand, length hand = 13%nat) hands.
Proof.
  intros deal hands.
  assert (validate_deal deal = Ok hands) as Hok by (vm_compute; reflexivity).
  assert (length (Py.split " " (Py.drop 2 deal)) = 4%nat) as Hfour
    by (vm_compute; reflexivity).
  split; [exact Hok|]. split; [exact Hfour|].
  exact (validate_deal_full_deck deal hands Hok Hfour).
Defined.

(** C2, as the claim words it, fails: nothing in [validate_deal] counts the
    hands, so a deal string that lists a single hand of 13 spades is
    returned without an exception and three seats hold no card. *)
Lemma validate_deal_single_hand :
  validate_deal "N:AKQJT98765432"
  = Ok [["SA";"SK";"SQ";"SJ";"ST";"S9";"S8";"S7";"S6";"S5";"S4";"S3";"S2"];
        []; []; []] ∧
  ¬ (concat [["SA";"SK";"SQ";"SJ";"ST";"S9";"S8";"S7";"S6";"S5";"S4";"S3";"S2"];
             []; []; []] ≡ₚ DECK).
Proof.
  split; [vm_compute; reflexivity|].
  intros Hperm%Permutation_length. discriminate Hperm.
Qed.

(** ** Play validator *)

Example test_determine_trick_winner :
  determine_trick_winner ["DA";"D3";"D2";"C2"] "C" 0 = Ok 3 ∧
  determine_trick_winner ["DA";"D3";"D2";"C2"] "S" 2 = Ok 2 ∧
  determine_trick_winner ["C2";"C5";"CA";"CK"] "D" 0 = Ok 2 ∧
  determine_trick_winner ["S3";"S5";"C3";"CA"] "S" 1 = Ok 2 ∧
  determine_trick_winner ["SK";"SQ";"ST";"DT"] "S" 1 = Ok 1 ∧
  determine_trick_winner ["DJ";"DK";"D2";"DQ"] "D" 3 = Ok 0.
Proof. repeat split; vm_compute; reflexivity. Qed.

Example test_reneged :
  call_with_hands [["C5";"D2";"S9";"HT"];["D5";"S7";"HA";"D3"];
                   ["H2";"HK";"HQ";"HJ"];["S2";"DA";"DK";"DQ"]]
    (λ hands, reneged ["C3";"D4";"S4";"H4"] hands 0) = Ok false ∧
  call_with_hands [["H2";"DK"];["S4";"DT"];["ST";"DA"];["C2";"C3"]]
    (λ hands, reneged ["SA";"D2";"DQ";"SJ"] hands 2) = Ok false ∧
  call_with_hands [["DQ";"DA"];["D2";"D3"];["S2";"CA"];["CQ";"CJ"]]
    (λ hands, reneged ["SK";"DK";"S3";"CT"] hands 1) = Ok true ∧
  call_with_hands [["C2";"C3"];["DJ";"D4"];["S2";"S3"];["DQ";"DK"]]
    (λ hands, reneged ["DA";"D2"] hands 3) = Ok false ∧
  call_with_hands [["C3";"C2"];["HT";"D5"];["HJ";"D4"];["HK";"HQ"]]
    (λ hands, reneged ["HA";"D2";"D3"] hands 0) = Ok true.
Proof. repeat split; vm_compute; reflexivity. Qed.

Example test_validate_dashes :
  validate_dashes ["DK";"DA";"D2";"C3"] = Ok 0%nat ∧
  validate_dashes ["SK";"SA";"SJ";"-"] = Ok 1%nat ∧
  validate_dashes ["HT";"H2";"-";"-"] = Ok 2%nat ∧
  validate_dashes ["C2";"-";"-";"-"] = Ok 3%nat ∧
  validate_dashes ["D2";"D3";"-";"D4"] = Raise CardAfterDashError ∧
  validate_dashes ["-";"-";"-";"-"] = Raise FirstCardIsDashError ∧
  validate_dashes ["-";"S3";"S4";"S5"] = Raise FirstCardIsDashError.
Proof. repeat split; vm_compute; reflexivity. Qed.

Example test_validate_play :
  let hands :=
    [["S4";"S2";"H7";"DK";"DT";"D9";"D8";"D5";"D4";"D3";"CQ";"C8";"C6"];
     ["SA";"SK";"SQ";"S9";"S5";"HK";"HQ";"HT";"H6";"D2";"CK";"CT";"C7"];
     ["SJ";"ST";"S8";"S7";"S6";"S3";"H9";"H5";"H3";"DQ";"DJ";"D6";"CA"];
     ["HA";"HJ";"H8";"H4";"H2";"DA";"D7";"CJ";"C9";"C5";"C4";"C3";"C2"]] in
  call_with_hands hands (λ hands, validate_play
    "H7 H6 H3 % H8 C6 CT CA C2 C8 PBN HT H5 H2 CQ CK S3 C3 !" "N" hands "C")
  = Ok ("H7H6H3H8C2C6CTCAH5H2C8HTCQCKS3C3",
        [0;1;2;3;3;0;1;2;2;3;0;1;0;1;2;3], 4, 2) ∧
  call_with_hands hands (λ hands, validate_play
    "H7 H6 H3 H8 C6 CT CA C2 C8 HT H5 H2 CQ -- - --" "N" hands "C")
  = Ok ("H7H6H3H8C2C6CTCAH5H2C8HTCQ", [0;1;2;3;3;0;1;2;2;3;0;1;0], 3, 1) ∧
  call_with_hands [["HQ"];["H2"];["H3"];["HT"]] (λ hands, validate_play "H3 HTHQ H2" "S" hands "H")
  = Ok ("H3HTHQH2", [2;3;0;1], 1, 0) ∧
  call_with_hands hands (λ hands, validate_play
    "H7 H6 H3 H8 C6 CT CA C2 C8 HT H5 H2 CQ CK S3" "N" hands "C")
  = Raise UnbalancedPlaySequenceError ∧
  call_with_hands hands (λ hands, validate_play
    "H7 H6 H3 H8 C6 CT CA C2 C8 HT H5 H2 CQ CK S3 HJ" "N" hands "C")
  = Raise RenegeError ∧
  call_with_hands hands (λ hands, validate_play
    "H7 H6 H3 H8 C6 CT CA C2 C8 HT H5 H2 CQ CK S3 C7" "N" hands "C")
  = Raise PlayError ∧
  call_with_hands hands (λ hands, validate_play
    "H7 H6 H3 H8 C6 CT CA C2 C8 HT H5 H2 CQ CK S3 C2" "N" hands "C")
  = Raise PlayError ∧
  call_with_hands hands (λ hands, validate_play
    "H7 H6 H3 H8 C6 CT CA C2 C8 HT H5 H2 CQ - S3 -" "N" hands "C")
  = Raise CardAfterDashError ∧
  call_with_hands hands (λ hands, validate_play
    "H7 H6 H3 H8 C6 CT CA C2 C8 HT H5 H2 - CK S3 C3" "N" hands "C")
  = Raise FirstCardIsDashError ∧
  call_with_hands hands (λ hands, validate_play
    "H7 - - - C6 CT CA C2 C8 HT H5 H2 CQ CK S3 C2" "N" hands "C")
  = Raise MultipleClaimError.
Proof. repeat split; vm_compute; reflexivity. Qed.

(** C6: the code does not do what the claim says, and its own docstring
    ("all other invalid plays ... will be ignored") with it.  The removal
    loop mutates [plays] while iterating over it, so after an illegal token
    is removed the next token is skipped: of several adjacent illegal
    tokens some survive.  With the header tokens [% PBN 2.0] in front of a
    complete trick, [PBN] survives and the call raises
    [UnbalancedPlaySequenceError] where the trick alone is accepted; with
    [% !] in front of three cards, [!] survives, makes the count four, and
    the call raises [PlayError]. *)
Theorem validate_play_adjacent_illegal_tokens :
  let hands := [["HQ"]; ["H2"]; ["H3"]; ["HT"]] in
  let valid_plays := ["-"; "HQ"; "H2"; "H3"; "HT"] in
  remove_invalid_plays 7 0 valid_plays ["%"; "PBN"; "2.0"; "H3"; "HT"; "HQ"; "H2"]
    = ["PBN"; "H3"; "HT"; "HQ"; "H2"] ∧
  filter (λ play, play ∈ valid_plays) ["%"; "PBN"; "2.0"; "H3"; "HT"; "HQ"; "H2"]
    = ["H3"; "HT"; "HQ"; "H2"] ∧
  call_with_hands hands (λ hands, validate_play "% PBN 2.0 H3 HT HQ H2" "S" hands "H")
    = Raise UnbalancedPlaySequenceError ∧
  call_with_hands hands (λ hands, validate_play "H3 HT HQ H2" "S" hands "H")
    = Ok ("H3HTHQH2", [2; 3; 0; 1], 1, 0) ∧
  call_with_hands hands (λ hands, validate_play "% ! H3 HT HQ" "S" hands "H")
    = Raise PlayError.
Proof. repeat split; vm_compute; reflexivity. Qed.

(** The fuel of [remove_invalid_plays] never runs out: more fuel than the
    length of the list changes nothing. *)
Lemma remove_invalid_plays_fuel valid_plays fuel : ∀ i plays extra,
  (length plays ≤ fuel + i)%nat →
  remove_invalid_plays (fuel + extra) i valid_plays plays
  = remove_invalid_plays fuel i valid_plays plays.
Proof.
  induction fuel as [|fuel IH]; intros i plays extra Hlen.
  - cbn [Nat.add remove_invalid_plays].
    destruct extra as [|extra]; [done|]. cbn [remove_invalid_plays].
    rewrite (proj2 (lookup_ge_None plays i)) by lia. done.
  - cbn [Nat.add remove_invalid_plays].
    destruct (plays !! i) as [play|] eqn:Hplay; [|done].
    destruct (negb (Py.mem play valid_plays)).
    + apply IH. destruct (Py.list_remove play plays) as [plays'|] eqn:Hremove; cbn.
      * apply list_remove_Permutation, Permutation_length in Hremove.
        cbn in Hremove. lia.
      * lia.
    + apply IH. lia.
Qed.

(** ** Rules for computations on the store *)

Lemma hoare_ret {A} P (a : A) Q E :
  (∀ h, P h → Q a h) → hoare P (mret a) Q E.
Proof. intros HQ h HP. by apply HQ. Qed.

Lemma hoare_raise {A} P e (Q : A → _) E :
  (∀ h, P h → E e h) → hoare P (raise e) Q E.
Proof. intros HE h HP. by apply HE. Qed.

Lemma hoare_lift {A} P (r : result A) Q E :
  (∀ h, P h → match r with Ok a => Q a h | Raise e => E e h end) →
  hoare P (lift r) Q E.
Proof. intros Hr h HP. specialize (Hr h HP). unfold lift. by destruct r. Qed.

Lemma hoare_bind {A B} P (m : pyM A) (f : A → pyM B) R Q E :
  hoare P m R E → (∀ a, hoare (R a) (f a) Q E) → hoare P (m ≫= f) Q E.
Proof.
  intros Hm Hf h HP. specialize (Hm h HP).
  unfold mbind, pyM_bind. destruct (m h) as [[a|e] h']; [|done].
  by apply Hf.
Qed.

Lemma hoare_conseq {A} (P P' : _ → Prop) (m : pyM A) (Q Q' : A → _ → Prop)
    (E E' : exn → _ → Prop) :
  hoare P' m Q' E' →
  (∀ h, P h → P' h) → (∀ a h, Q' a h → Q a h) → (∀ e h, E' e h → E e h) →
  hoare P m Q E.
Proof.
  intros Hm HP HQ HE h Hh. specialize (Hm h (HP h Hh)).
  destruct (m h) as [[a|e] h']; eauto.
Qed.

Lemma hoare_for_each_st {S A} (I : S → gmap loc pyobj → Prop)
    (body : S → A → pyM S) E l st :
  (∀ s x, x ∈ l → hoare (I s) (body s x) I E) →
  hoare (I st) (for_each_st body st l) I E.
Proof.
  revert st. induction l as [|x l IH]; intros st Hbody; cbn [for_each_st].
  - by apply hoare_ret.
  - eapply hoare_bind.
    + apply Hbody. by left.
    + intros s. apply IH. intros s' y Hy. apply Hbody. by right.
Qed.

Lemma hoare_try_except_st {A} P (m : pyM A) C handler Q E E' :
  hoare P m Q E' →
  (∀ e, C e = true → hoare (E' e) (handler e) Q E) →
  (∀ e h, C e = false → E' e h → E e h) →
  hoare P (try_except_st m C handler) Q E.
Proof.
  intros Hm Hhandler Hother h HP. specialize (Hm h HP).
  unfold try_except_st. destruct (m h) as [[a|e] h']; [done|].
  destruct (C e) eqn:HC.
  - by apply Hhandler.
  - by apply Hother.
Qed.

(** A computation that only reads keeps whatever held of the store. *)
Lemma hoare_readonly {A} (I : gmap loc pyobj → Prop) (m : pyM A) :
  readonly m → hoare I m (λ _, I) (λ _, I).
Proof.
  intros Hm h HI. specialize (Hm h). destruct (m h) as [[a|e] h']; by subst.
Qed.

Lemma readonly_ret {A} (a : A) : readonly (mret a).
Proof. done. Qed.

Lemma readonly_raise {A} e : readonly (@raise A e).
Proof. done. Qed.

Lemma readonly_lift {A} (r : result A) : readonly (lift r).
Proof. done. Qed.

Lemma readonly_load_refs l : readonly (load_refs l).
Proof. intros h. unfold load_refs. by repeat case_match. Qed.

Lemma readonly_load_strs l : readonly (load_strs l).
Proof. intros h. unfold load_strs. by repeat case_match. Qed.

Lemma readonly_bind {A B} (m : pyM A) (f : A → pyM B) :
  readonly m → (∀ a, readonly (f a)) → readonly (m ≫= f).
Proof.
  intros Hm Hf h. specialize (Hm h). unfold mbind, pyM_bind.
  destruct (m h) as [[a|e] h']; cbn in Hm; subst; [apply Hf|done].
Qed.

Lemma readonly_for_each_st {S A} (body : S → A → pyM S) st l :
  (∀ s x, readonly (body s x)) → readonly (for_each_st body st l).
Proof.
  intros Hbody. revert st. induction l as [|x l IH]; intros st; cbn.
  - apply readonly_ret.
  - apply readonly_bind; [apply Hbody|]. intros s. apply IH.
Qed.

Lemma readonly_hands_item hands i : readonly (hands_item hands i).
Proof.
  apply readonly_bind; [apply readonly_load_refs|].
  intros refs. apply readonly_lift.
Qed.

Lemma readonly_hand_cards hands i : readonly (hand_cards hands i).
Proof.
  apply readonly_bind; [apply readonly_hands_item|].
  intros r. apply readonly_load_strs.
Qed.

Lemma readonly_reneged_loop hands lead entries :
  ∀ led_suit, readonly (reneged_loop hands lead led_suit entries).
Proof.
  induction entries as [|entry rest IH]; intros led_suit; cbn [reneged_loop].
  - apply readonly_ret.
  - destruct (entry.1 =? 0)%nat.
    + apply readonly_bind; [apply readonly_lift|]. intros led. apply IH.
    + apply readonly_bind; [apply readonly_lift|]. intros suit.
      destruct (negb (Py.str_eqb suit led_suit)); [|apply IH].
      apply readonly_bind; [apply readonly_hand_cards|]. intros cards.
      apply readonly_bind; [apply readonly_lift|]. intros suits.
      destruct (Py.mem led_suit suits); [apply readonly_ret|apply IH].
Qed.

Lemma readonly_reneged trick hands lead : readonly (reneged trick hands lead).
Proof. apply readonly_reneged_loop. Qed.

(** ** The private copy of [validate_play] *)

Lemma unchanged_refl h : unchanged h h.
Proof. by intros l _. Qed.

Lemma unchanged_insert h0 h l o :
  unchanged h0 h → h0 !! l = None → unchanged h0 (<[l := o]> h).
Proof.
  intros Hun Hl l' Hl'. rewrite lookup_insert_ne; [by apply Hun|].
  intros ->. rewrite Hl in Hl'. by destruct Hl'.
Qed.

Lemma unchanged_fresh h0 h : unchanged h0 h → h0 !! fresh (dom h) = None.
Proof.
  intros Hun. destruct (h0 !! fresh (dom h)) as [o|] eqn:Hfresh; [|done].
  exfalso. apply (is_fresh (dom h)). apply elem_of_dom.
  rewrite Hun by eauto. eauto.
Qed.

(** [hands[i].remove(card)] on the private copy writes to the copy only. *)
Lemma hand_remove_private h0 y i card :
  hoare (private_copy h0 y) (hand_remove y i card)
        (λ _, private_copy h0 y) (λ _, private_copy h0 y).
Proof.
  intros h HI. pose proof HI as (Hun & Hy & Hrefs).
  unfold hand_remove, hands_item, mbind, pyM_bind, load_refs, lift, load_strs,
    store, raise.
  destruct (h !! y) as [[|refs]|] eqn:Hhy; [done| |done].
  destruct (refs !! i) as [r|] eqn:Hr; cbn [of_option]; [|done].
  destruct (h !! r) as [[cards|]|] eqn:Hhr; [|done..].
  destruct (Py.list_remove card cards) as [cards'|]; [|done].
  assert (h0 !! r = None) as Hpriv.
  { specialize (Hrefs _ eq_refl). rewrite Forall_forall in Hrefs.
    apply Hrefs. by eapply list_elem_of_lookup_2. }
  split; [by apply unchanged_insert|]. split; [done|].
  intros refs'. rewrite lookup_insert_ne by congruence.
  rewrite Hhy. intros [= <-]. by apply Hrefs.
Qed.

Lemma readonly_finish_trick hands trump lead_player declarer st :
  readonly (finish_trick hands trump lead_player declarer st).
Proof.
  unfold finish_trick.
  apply readonly_bind; [apply readonly_lift|]. intros [[ops order] ordered].
  apply readonly_bind; [apply readonly_lift|]. intros dashes.
  apply readonly_bind; [apply readonly_reneged|]. intros [|].
  - apply readonly_raise.
  - destruct (dashes =? 0)%nat; [|apply readonly_ret].
    apply readonly_bind; [apply readonly_lift|]. intros leader.
    apply readonly_ret.
Qed.

Lemma play_step_private h0 y trump lead_player declarer st entry :
  hoare (private_copy h0 y) (play_step y trump lead_player declarer st entry)
        (λ _, private_copy h0 y) (λ _, private_copy h0 y).
Proof.
  unfold play_step. destruct (negb (num_dashes st =? 0)%nat).
  { by apply hoare_raise. }
  eapply hoare_bind with (R := λ _, private_copy h0 y).
  - destruct (negb (Py.str_eqb entry.2 "-")); [|by apply hoare_ret].
    eapply hoare_try_except_st.
    + apply hand_remove_private.
    + intros e _. by apply hoare_raise.
    + done.
  - intros _. destruct (_ =? 3)%nat; [|by apply hoare_ret].
    apply hoare_readonly, readonly_finish_trick.
Qed.

Lemma deepcopy_item_private h0 y memo a :
  hoare (λ h, private_copy h0 y h ∧ ∀ a a', memo !! a = Some a' → h0 !! a' = None)
        (deepcopy_item y memo a)
        (λ memo' h, private_copy h0 y h ∧
                    ∀ a a', memo' !! a = Some a' → h0 !! a' = None)
        (λ _ h, unchanged h0 h).
Proof.
  intros h [HI Hmemo]. pose proof HI as (Hun & Hy & Hrefs).
  unfold deepcopy_item, mbind, pyM_bind, load_refs, load_strs, alloc, store.
  destruct (memo !! a) as [a'|] eqn:Ha; cbn [mret pyM_ret].
  - destruct (h !! y) as [[|copied]|] eqn:Hhy; [done| |done].
    split; [|done]. split; [by apply unchanged_insert|]. split; [done|].
    intros refs. rewrite lookup_insert_eq. intros [= <-].
    apply Forall_app. split; [by apply Hrefs|].
    constructor; [by eapply Hmemo|constructor].
  - destruct (h !! a) as [[items|]|] eqn:Hha; [|done..].
    cbn [mret pyM_ret]. cbv beta iota.
    pose proof (unchanged_fresh _ _ Hun) as Hfresh.
    set (a' := fresh (dom h)) in *.
    assert (unchanged h0 (<[a' := PyStrList items]> h)) as Hun'
      by (by apply unchanged_insert).
    destruct (<[a' := PyStrList items]> h !! y) as [[|copied]|] eqn:Hhy;
      [done| |done].
    split.
    + split; [by apply unchanged_insert|]. split; [done|].
      intros refs. rewrite lookup_insert_eq. intros [= <-].
      apply Forall_app. split; [|by repeat constructor].
      apply Hrefs. rewrite lookup_insert_ne in Hhy; [done|].
      intros ->. rewrite lookup_insert_eq in Hhy. discriminate Hhy.
    + intros b b'. rewrite lookup_insert. case_decide; [by intros [= <-]|].
      apply Hmemo.
Qed.

Lemma deepcopy_private h0 hands :
  hoare (λ h, h = h0) (deepcopy hands)
        (λ y h, private_copy h0 y h) (λ _ h, unchanged h0 h).
Proof.
  intros h ->. unfold deepcopy, mbind at 1, pyM_bind at 1, load_refs.
  destruct (h0 !! hands) as [[|items]|] eqn:Hhands;
    [apply unchanged_refl| |apply unchanged_refl].
  unfold mbind at 1, pyM_bind at 1, alloc.
  pose proof (unchanged_fresh _ _ (unchanged_refl h0)) as Hfresh.
  set (y := fresh (dom h0)) in *.
  pose proof (hoare_for_each_st
    (λ memo h, private_copy h0 y h ∧ ∀ a a', memo !! a = Some a' → h0 !! a' = None)
    (deepcopy_item y) (λ _ h, unchanged h0 h) items {[hands := y]}) as Hloop.
  unfold mbind, pyM_bind.
  specialize (Hloop (λ memo x _, deepcopy_item_private h0 y memo x)
                (<[y := PyRefList []]> h0)).
  assert (private_copy h0 y (<[y := PyRefList []]> h0) ∧
          ∀ a a', ({[hands := y]} : gmap loc loc) !! a = Some a' → h0 !! a' = None)
    as Hpre.
  { split.
    - split; [apply unchanged_insert; [apply unchanged_refl|done]|].
      split; [done|].
      intros refs. rewrite lookup_insert_eq. by intros [= <-].
    - intros a a'. rewrite lookup_singleton. case_decide; [|done].
      by intros [= <-]. }
  specialize (Hloop Hpre).
  destruct (for_each_st _ _ _ _) as [[memo|e] h']; [apply Hloop|done].
Qed.

Lemma validate_play_hoare h0 play_sequence lead hands trump :
  hoare (λ h, h = h0) (validate_play play_sequence lead hands trump)
        (λ _ h, unchanged h0 h) (λ _ h, unchanged h0 h).
Proof.
  unfold validate_play.
  destruct (negb (Py.truthy play_sequence) || negb (Py.truthy lead)
            || negb (Py.truthy trump)).
  { apply hoare_raise. intros h ->. apply unchanged_refl. }
  eapply hoare_bind; [apply deepcopy_private|]. intros y.
  apply hoare_conseq with (P' := private_copy h0 y)
    (Q' := λ _, private_copy h0 y) (E' := λ _, private_copy h0 y);
    [|done|by intros _ h [? _]..].
  eapply hoare_bind; [apply hoare_readonly, readonly_load_refs|]. intros hand_refs.
  eapply hoare_bind.
  { apply hoare_readonly, readonly_for_each_st. intros valid_plays hand.
    apply readonly_bind; [apply readonly_load_strs|]. intros cards.
    apply readonly_ret. }
  intros valid_plays. cbv zeta.
  destruct (negb (_ =? 0)%nat); [by apply hoare_raise|].
  eapply hoare_bind; [apply hoare_readonly, readonly_lift|]. intros lead_player.
  eapply hoare_bind.
  { apply (hoare_for_each_st (λ _, private_copy h0 y)).
    intros st entry _. apply play_step_private. }
  intros st. by apply hoare_ret.
Qed.

(** C9: [validate_play] never mutates its [hands] argument: whatever the
    arguments and the store, and whether the call returns or raises, every
    object that was in the store before the call (the list of hands and
    each hand among them) is the same after it. *)
Theorem validate_play_does_not_mutate
    (play_sequence lead : string) (hands : loc) (trump : string)
    (h : gmap loc pyobj) :
  unchanged h (validate_play play_sequence lead hands trump h).2.
Proof.
  pose proof (validate_play_hoare h play_sequence lead hands trump h eq_refl) as H.
  destruct (validate_play play_sequence lead hands trump h) as [[r|e] h']; exact H.
Qed.

(** The hands read the same before and after a call that removes cards
    from the copy. *)
Example validate_play_hands_intact :
  let caller :=
    hands ← alloc_hands [["HQ"]; ["H2"]; ["H3"]; ["HT"]];
    played ← validate_play "H3 HTHQ H2" "S" hands "H";
    refs ← load_refs hands;
    after ← for_each_st (λ seen r, cards ← load_strs r; mret (seen ++ [cards]))
              [] refs;
    mret (played, after) in
  (caller ∅).1
  = Ok (("H3HTHQH2", [2; 3; 0; 1], 1, 0), [["HQ"]; ["H2"]; ["H3"]; ["HT"]]).
Proof. vm_compute. reflexivity. Qed.

(* ------------------------------------------------------------------ *)
(** ** Derived look-ups, claims and years: the unit tests of the
       repository *)
(* ------------------------------------------------------------------ *)

Example test_ensure_non_contradiction :
  ensure_non_contradiction "0" "0" = Ok "0"
  ∧ ensure_non_contradiction "" "" = Ok ""
  ∧ ensure_non_contradiction "0" "" = Ok "0"
  ∧ ensure_non_contradiction "" "0" = Ok "0"
  ∧ ensure_non_contradiction "0" "1" = Raise ContradictionError.
Proof. vm_compute. done. Qed.

Example test_normalized_contract :
  normalize_contract <$> ["Pass"; "1NT"; "5CXX"; "3D"; "3SX"; "7NTXX"]
  = ["P"; "1N"; "5CR"; "3D"; "3SX"; "7NR"].
Proof. vm_compute. done. Qed.

Example test_find_contract_from_auction :
  find_contract_from_auction <$>
    ["P P P 1C P 2S X R P 7N"; "P 4N X P P 5H X P P P";
     "2C 3D P P X R P P P"; "P P P P"]
  = ["7N"; "5HX"; "3DR"; "P"].
Proof. vm_compute. done. Qed.

Example test_find_declarer_from_auction :
  find_declarer_from_auction "1C 2C 3C 4C 5S 7C P P P" "E" = Ok "S"
  ∧ find_declarer_from_auction "P P 2D 3C 4H X 5H P P P" "N" = Ok "N"
  ∧ find_declarer_from_auction "1C X R P P P" "W" = Ok "W"
  ∧ find_declarer_from_auction "P P P P" "E" = Ok "".
Proof. vm_compute. done. Qed.

Example test_find_lead_from_declarer :
  find_lead_from_declarer <$> ["N"; "E"; "S"; "W"] = Ok <$> ["E"; "S"; "W"; "N"].
Proof. vm_compute. done. Qed.

Example test_compute_claim :
  compute_claim (PyInt 10) 6 5 = Ok 10
  ∧ compute_claim (PyInt 8) 10 9 = Raise ClaimError
  ∧ compute_claim (PyInt 12) 12 10 = Raise ClaimError.
Proof. vm_compute. done. Qed.

Example test_compute_year :
  compute_year "2016" "2010.??.??" = Ok 2010
  ∧ compute_year "2000 Bridge Game" "#" = Ok 2000
  ∧ compute_year "Bridge 2017" "?" = Ok 0
  ∧ compute_year "Bridge1954" "" = Ok 0
  ∧ compute_year "Bridge1982Champs" "2032.??.??" = Ok 1982.
Proof. vm_compute. done. Qed.

(* ------------------------------------------------------------------ *)
(** ** Further properties of the scoring engine *)
(* ------------------------------------------------------------------ *)

(** A contract of [valid_contract] reads as a level from 1 to 7, one of
    the five denominations and an optional [X] or [R]. *)
Lemma valid_contract_shape contract :
  Score.valid_contract contract = true →
  ∃ level trump double,
    Py.item contract 0 ≫= Py.int_of_char = Ok level ∧
    Py.item contract 1 = Ok trump ∧
    try_except (Py.item contract 2) (is_exn IndexError) (λ _, Ok "") = Ok double ∧
    Score.contract_level contract = level ∧
    1 ≤ level ≤ 7 ∧ trump ∈ ["C"; "D"; "H"; "S"; "N"] ∧ double ∈ [""; "X"; "R"].
Proof.
  unfold Score.valid_contract. intros H%bool_decide_eq_true.
  cbv [ORDERED_CONTRACT_BIDS LEVELS mbind list_bind foldr app String.append] in H.
  repeat (apply elem_of_cons in H as [->|H];
          [do 3 eexists; repeat split; try reflexivity; try lia;
           repeat first [apply list_elem_of_here | apply list_elem_of_further]|]).
  by apply elem_of_nil in H.
Qed.

(** Conditions on constant strings are decided by evaluation. *)
Ltac eval_closed :=
  repeat match goal with
         | |- context [Py.mem ?a ?l] =>
             let b := eval vm_compute in (Py.mem a l) in
             change (Py.mem a l) with b
         | |- context [Py.str_eqb ?a ?c] =>
             let b := eval vm_compute in (Py.str_eqb a c) in
             change (Py.str_eqb a c) with b
         | |- context [Py.truthy ?a] =>
             let b := eval vm_compute in (Py.truthy a) in
             change (Py.truthy a) with b
         | |- context [Py.int_of_float ?q] =>
             let b := eval vm_compute in (Py.int_of_float q) in
             change (Py.int_of_float q) with b
         end;
  cbn [negb andb orb].

Ltac split_ifs :=
  repeat match goal with
         | |- context [if ?b then _ else _] => destruct b eqn:?
         end.

Ltac list_cases H :=
  repeat (apply elem_of_cons in H as [->|H]); [..|by apply elem_of_nil in H].

Lemma undertrick_points_negative undertricks double vul year :
  1 ≤ undertricks →
  Score.compute_undertrick_points undertricks double vul year < 0.
Proof.
  intros Hu. unfold Score.compute_undertrick_points.
  rewrite floordiv_by_1_5.
  assert (0 ≤ undertricks * 10 / 15) by (apply Z.div_pos; lia).
  split_ifs; lia.
Qed.

Lemma contract_points_positive level trump double :
  1 ≤ level → 0 < Score.compute_contract_points level trump double.
Proof. intros Hl. unfold Score.compute_contract_points. split_ifs; lia. Qed.

Lemma bonus_points_nonneg level will_make contract_points double vul :
  0 ≤ Score.compute_bonus_points level will_make contract_points double vul.
Proof.
  unfold Score.compute_bonus_points. destruct vul; eval_closed; split_ifs; lia.
Qed.

Lemma overtrick_points_nonneg overtricks trump double vul :
  0 ≤ overtricks →
  0 ≤ Score.compute_overtrick_points overtricks trump double vul.
Proof. intros Ho. unfold Score.compute_overtrick_points. split_ifs; lia. Qed.

(** X1: for every well-formed contract, trick count from 0 on,
    vulnerability and year, [compute_score] returns a score whose sign tells the outcome:
    strictly negative when the contract goes down (fewer tricks than
    level + 6), strictly positive when it is made. *)
Theorem compute_score_sign (contract : string) (will_make : Z) (vul : bool) (year : Z) :
  Score.valid_contract contract = true →
  0 ≤ will_make →
  ∃ score,
    Score.compute_score contract will_make vul year = Ok score ∧
    (will_make < Score.contract_level contract + 6 → score < 0) ∧
    (Score.contract_level contract + 6 ≤ will_make → 0 < score).
Proof.
  intros (level & trump & double & H0 & H1 & H2 & -> & Hl & Ht & Hd)%valid_contract_shape
    _.
  eexists. split; [by apply compute_score_parsed|]. split; intros Hcmp.
  - assert ((will_make <? level + 6) = true) as -> by lia.
    apply undertrick_points_negative. lia.
  - assert ((will_make <? level + 6) = false) as -> by lia. cbn zeta.
    pose proof (contract_points_positive level trump double).
    pose proof (bonus_points_nonneg level will_make
      (Score.compute_contract_points level trump double) double vul).
    pose proof (overtrick_points_nonneg (will_make - (level + 6)) trump double vul).
    lia.
Qed.

Lemma compute_score_sign_witness :
  Score.valid_contract "3NX" = true ∧ 0 ≤ 8 ∧
  ∃ score,
    Score.compute_score "3NX" 8 true 1990 = Ok score ∧
    (8 < Score.contract_level "3NX" + 6 → score < 0) ∧
    (Score.contract_level "3NX" + 6 ≤ 8 → 0 < score).
Proof.
  split; [reflexivity|]. split; [lia|].
  apply (compute_score_sign "3NX" 8 true 1990); [reflexivity|lia].
Defined.

Lemma undertrick_points_antitone u u' double vul year :
  1 ≤ u ≤ u' →
  Score.compute_undertrick_points u' double vul year
  ≤ Score.compute_undertrick_points u double vul year.
Proof.
  intros Hu. unfold Score.compute_undertrick_points.
  rewrite !floordiv_by_1_5.
  assert (u * 10 / 15 ≤ u' * 10 / 15) by (apply Z.div_le_mono; lia).
  split_ifs; lia.
Qed.

Lemma bonus_points_made level will_make contract_points double vul :
  level + 6 ≤ will_make ≤ 13 →
  Score.compute_bonus_points level will_make contract_points double vul
  = Score.compute_bonus_points level (level + 6) contract_points double vul.
Proof.
  intros Hw. unfold Score.compute_bonus_points.
  assert ((level =? 6) && (12 <=? will_make) = (level =? 6) && (12 <=? level + 6)) as ->.
  { destruct (Z.eqb_spec level 6); [|done]. cbn [andb]. lia. }
  assert ((level =? 7) && (will_make =? 13) = (level =? 7) && (level + 6 =? 13)) as ->.
  { destruct (Z.eqb_spec level 7); [|done]. cbn [andb]. lia. }
  done.
Qed.

Lemma overtrick_points_monotone o o' trump double vul :
  o ≤ o' →
  Score.compute_overtrick_points o trump double vul
  ≤ Score.compute_overtrick_points o' trump double vul.
Proof. intros Ho. unfold Score.compute_overtrick_points. split_ifs; lia. Qed.

(** X2: for a well-formed contract, a declarer who takes more tricks
    never scores less: [compute_score] is monotone in [will_make] over the
    0 to 13 tricks of a deal. *)
Theorem compute_score_monotone
    (contract : string) (will_make will_make' : Z) (vul : bool) (year : Z) :
  Score.valid_contract contract = true →
  0 ≤ will_make → will_make ≤ will_make' → will_make' ≤ 13 →
  ∃ score score',
    Score.compute_score contract will_make vul year = Ok score ∧
    Score.compute_score contract will_make' vul year = Ok score' ∧
    score ≤ score'.
Proof.
  intros (level & trump & double & H0 & H1 & H2 & _ & Hl & Ht & Hd)%valid_contract_shape
    _ Hle H13.
  do 2 eexists. split; [by apply compute_score_parsed|].
  split; [by apply compute_score_parsed|].
  pose proof (contract_points_positive level trump double).
  destruct (Z.ltb_spec will_make (level + 6)), (Z.ltb_spec will_make' (level + 6));
    try lia; cbn zeta.
  - apply undertrick_points_antitone. lia.
  - pose proof (undertrick_points_negative (level + 6 - will_make) double vul year).
    pose proof (bonus_points_nonneg level will_make'
      (Score.compute_contract_points level trump double) double vul).
    pose proof (overtrick_points_nonneg (will_make' - (level + 6)) trump double vul).
    lia.
  - rewrite (bonus_points_made level will_make), (bonus_points_made level will_make')
      by lia.
    pose proof (overtrick_points_monotone (will_make - (level + 6))
      (will_make' - (level + 6)) trump double vul).
    lia.
Qed.

Lemma compute_score_monotone_witness :
  Score.valid_contract "6SR" = true ∧ 0 ≤ 11 ∧ 11 ≤ 13 ∧ 13 ≤ 13 ∧
  ∃ score score',
    Score.compute_score "6SR" 11 false 1980 = Ok score ∧
    Score.compute_score "6SR" 13 false 1980 = Ok score' ∧
    score ≤ score'.
Proof.
  split; [reflexivity|]. split; [lia|]. split; [lia|]. split; [lia|].
  apply (compute_score_monotone "6SR" 11 13 false 1980); [reflexivity|lia|lia|lia].
Defined.

(** A contract bid followed by a doubling letter reads as the bid's level
    and denomination with that letter. *)
Lemma contract_bid_parses bid double :
  bid ∈ ORDERED_CONTRACT_BIDS → double ∈ [""; "X"; "R"] →
  ∃ level trump,
    Py.item (bid +:+ double) 0 ≫= Py.int_of_char = Ok level ∧
    Py.item (bid +:+ double) 1 = Ok trump ∧
    try_except (Py.item (bid +:+ double) 2) (is_exn IndexError) (λ _, Ok "")
      = Ok double ∧
    Score.contract_level bid = level ∧
    1 ≤ level ≤ 7 ∧ trump ∈ ["C"; "D"; "H"; "S"; "N"].
Proof.
  intros Hbid Hd.
  cbv [ORDERED_CONTRACT_BIDS LEVELS mbind list_bind foldr app String.append] in Hbid.
  list_cases Hd;
    (repeat (apply elem_of_cons in Hbid as [->|Hbid];
             [do 2 eexists; repeat split; try reflexivity; try lia;
              repeat first [apply list_elem_of_here | apply list_elem_of_further]|]);
     by apply elem_of_nil in Hbid).
Qed.

Lemma undertrick_points_doubling u vul year :
  1 ≤ u →
  Score.compute_undertrick_points u "R" vul year
  < Score.compute_undertrick_points u "X" vul year
  ∧ Score.compute_undertrick_points u "X" vul year
    < Score.compute_undertrick_points u "" vul year.
Proof.
  intros Hu. unfold Score.compute_undertrick_points.
  rewrite !floordiv_by_1_5. eval_closed.
  assert (0 ≤ u * 10 / 15) by (apply Z.div_pos; lia).
  assert (2 ≤ u → 1 ≤ u * 10 / 15) by (intros; apply Z.div_le_lower_bound; lia).
  assert (3 ≤ u → 2 ≤ u * 10 / 15) by (intros; apply Z.div_le_lower_bound; lia).
  destruct vul; cbn [negb]; split_ifs; lia.
Qed.

Lemma contract_points_doubling level trump :
  Score.compute_contract_points level trump "X"
    = 2 * Score.compute_contract_points level trump ""
  ∧ Score.compute_contract_points level trump "R"
    = 4 * Score.compute_contract_points level trump "".
Proof. unfold Score.compute_contract_points. eval_closed. split_ifs; lia. Qed.

Lemma bonus_points_doubling level will_make cp cp' vul :
  0 < cp ≤ cp' →
  Score.compute_bonus_points level will_make cp "" vul
    < Score.compute_bonus_points level will_make cp' "X" vul
  ∧ Score.compute_bonus_points level will_make cp "X" vul
    < Score.compute_bonus_points level will_make cp' "R" vul.
Proof.
  intros Hcp. unfold Score.compute_bonus_points.
  assert ((cp =? 0) = false) as -> by lia.
  assert ((cp' =? 0) = false) as -> by lia.
  destruct vul; eval_closed;
    destruct ((level =? 6) && (12 <=? will_make)),
      ((level =? 7) && (will_make =? 13));
    split_ifs; lia.
Qed.

Lemma overtrick_points_doubling overtricks trump vul :
  0 ≤ overtricks →
  Score.compute_overtrick_points overtricks trump "" vul
    ≤ Score.compute_overtrick_points overtricks trump "X" vul
  ∧ Score.compute_overtrick_points overtricks trump "X" vul
    ≤ Score.compute_overtrick_points overtricks trump "R" vul.
Proof.
  intros Ho. unfold Score.compute_overtrick_points. eval_closed.
  destruct vul; split_ifs; lia.
Qed.

Lemma made_points_doubling level will_make trump vul :
  1 ≤ level → level + 6 ≤ will_make →
  let made double :=
    Score.compute_contract_points level trump double
    + Score.compute_bonus_points level will_make
        (Score.compute_contract_points level trump double) double vul
    + Score.compute_overtrick_points (will_make - (level + 6)) trump double vul in
  made "" < made "X" ∧ made "X" < made "R".
Proof.
  intros Hl Hw. cbv zeta.
  pose proof (contract_points_positive level trump "" Hl) as Hpos.
  destruct (contract_points_doubling level trump) as [-> ->].
  set (cp := Score.compute_contract_points level trump "") in *.
  destruct (bonus_points_doubling level will_make cp (2 * cp) vul) as [? _]; [lia|].
  destruct (bonus_points_doubling level will_make (2 * cp) (4 * cp) vul) as [_ ?]; [lia|].
  destruct (overtrick_points_doubling (will_make - (level + 6)) trump vul); [lia|].
  lia.
Qed.

(** X3: doubling raises the stakes.  For every contract bid and trick
    count from 0 on, the score
    of the bid doubled lies strictly beyond the undoubled one, and the
    redoubled one strictly beyond the doubled one: lower when the
    contract goes down, higher when it is made. *)
Theorem compute_score_doubling (bid : string) (will_make : Z) (vul : bool) (year : Z) :
  Py.mem bid ORDERED_CONTRACT_BIDS = true →
  0 ≤ will_make →
  ∃ plain doubled redoubled,
    Score.compute_score bid will_make vul year = Ok plain ∧
    Score.compute_score (bid +:+ "X") will_make vul year = Ok doubled ∧
    Score.compute_score (bid +:+ "R") will_make vul year = Ok redoubled ∧
    (will_make < Score.contract_level bid + 6 →
       redoubled < doubled ∧ doubled < plain) ∧
    (Score.contract_level bid + 6 ≤ will_make →
       plain < doubled ∧ doubled < redoubled).
Proof.
  intros Hbid%bool_decide_eq_true _.
  destruct (contract_bid_parses bid "" Hbid) as (level & trump & P0 & P1 & P2 & Hlev & Hl & Ht);
    [repeat first [apply list_elem_of_here | apply list_elem_of_further]|].
  destruct (contract_bid_parses bid "X" Hbid) as (levelx & trumpx & X0 & X1 & X2 & Hlevx & _);
    [repeat first [apply list_elem_of_here | apply list_elem_of_further]|].
  destruct (contract_bid_parses bid "R" Hbid) as (levelr & trumpr & R0 & R1 & R2 & Hlevr & _);
    [repeat first [apply list_elem_of_here | apply list_elem_of_further]|].
  assert (bid +:+ "" = bid) as Hnil.
  { clear. induction bid as [|c s IH]; [done|].
    change (String c s +:+ "") with (String c (s +:+ "")). by rewrite IH. }
  rewrite Hnil in P0, P1, P2.
  assert (trumpx = trump ∧ trumpr = trump) as [-> ->].
  { clear -Hbid P1 X1 R1.
    cbv [ORDERED_CONTRACT_BIDS LEVELS mbind list_bind foldr app String.append] in Hbid.
    repeat (apply elem_of_cons in Hbid as [->|Hbid];
            [vm_compute in P1, X1, R1; split; congruence|]).
    by apply elem_of_nil in Hbid. }
  rewrite Hlev in Hlevx, Hlevr. subst levelx levelr. rewrite Hlev.
  do 3 eexists.
  split; [by apply compute_score_parsed|].
  split; [by apply compute_score_parsed|].
  split; [by apply compute_score_parsed|].
  split; intros Hcmp.
  - assert ((will_make <? level + 6) = true) as -> by lia.
    apply undertrick_points_doubling. lia.
  - assert ((will_make <? level + 6) = false) as -> by lia.
    apply (made_points_doubling level will_make trump vul); lia.
Qed.

Lemma compute_score_doubling_witness :
  Py.mem "2H" ORDERED_CONTRACT_BIDS = true ∧ 0 ≤ 7 ∧
  ∃ plain doubled redoubled,
    Score.compute_score "2H" 7 false 2000 = Ok plain ∧
    Score.compute_score ("2H" +:+ "X") 7 false 2000 = Ok doubled ∧
    Score.compute_score ("2H" +:+ "R") 7 false 2000 = Ok redoubled ∧
    (7 < Score.contract_level "2H" + 6 → redoubled < doubled ∧ doubled < plain) ∧
    (Score.contract_level "2H" + 6 ≤ 7 → plain < doubled ∧ doubled < redoubled).
Proof.
  split; [reflexivity|]. split; [lia|].
  apply (compute_score_doubling "2H" 7 false 2000); [reflexivity|lia].
Defined.

Lemma undertrick_points_lower_bound u double vul year :
  1 ≤ u ≤ 13 → double ∈ [""; "X"; "R"] →
  -7600 ≤ Score.compute_undertrick_points u double vul year.
Proof.
  intros Hu Hd. unfold Score.compute_undertrick_points.
  rewrite floordiv_by_1_5.
  assert (0 ≤ u * 10 / 15) by (apply Z.div_pos; lia).
  list_cases Hd; eval_closed; destruct vul; cbn [negb]; split_ifs; lia.
Qed.

Lemma made_points_upper_bound level will_make trump double vul :
  1 ≤ level ≤ 7 → level + 6 ≤ will_make ≤ 13 →
  trump ∈ ["C"; "D"; "H"; "S"; "N"] → double ∈ [""; "X"; "R"] →
  Score.compute_contract_points level trump double
  + Score.compute_bonus_points level will_make
      (Score.compute_contract_points level trump double) double vul
  + Score.compute_overtrick_points (will_make - (level + 6)) trump double vul
  ≤ 3160.
Proof.
  intros Hl Hw Ht Hd.
  unfold Score.compute_contract_points, Score.compute_bonus_points,
    Score.compute_overtrick_points.
  list_cases Ht; list_cases Hd; destruct vul; eval_closed; split_ifs; lia.
Qed.

(** X4: for a well-formed contract and a trick count from 0 to 13 the
    score lies between -7600 and 3160; -7600 is the value that the
    auction analysis starts its maxima from. *)
Theorem compute_score_bounds (contract : string) (will_make : Z) (vul : bool) (year : Z) :
  Score.valid_contract contract = true →
  0 ≤ will_make ≤ 13 →
  ∃ score,
    Score.compute_score contract will_make vul year = Ok score ∧
    -7600 ≤ score ≤ 3160.
Proof.
  intros (level & trump & double & H0 & H1 & H2 & _ & Hl & Ht & Hd)%valid_contract_shape
    Hw.
  eexists. split; [by apply compute_score_parsed|].
  destruct (Z.ltb_spec will_make (level + 6)); cbn zeta.
  - pose proof (undertrick_points_negative (level + 6 - will_make) double vul year).
    pose proof (λ H, undertrick_points_lower_bound (level + 6 - will_make)
      double vul year H Hd).
    lia.
  - pose proof (contract_points_positive level trump double).
    pose proof (bonus_points_nonneg level will_make
      (Score.compute_contract_points level trump double) double vul).
    pose proof (overtrick_points_nonneg (will_make - (level + 6)) trump double vul).
    pose proof (λ H, made_points_upper_bound level will_make trump double vul
      Hl H Ht Hd).
    lia.
Qed.

Lemma compute_score_bounds_witness :
  Score.valid_contract "7NR" = true ∧ 0 ≤ 0 ≤ 13 ∧
  ∃ score,
    Score.compute_score "7NR" 0 true 2000 = Ok score ∧ -7600 ≤ score ≤ 3160.
Proof.
  split; [reflexivity|]. split; [lia|].
  apply (compute_score_bounds "7NR" 0 true 2000); [reflexivity|lia].
Defined.

(** Both bounds are reached. *)
Example compute_score_extremes :
  Score.compute_score "7NR" 0 true 2000 = Ok (-7600)
  ∧ Score.compute_score "1NR" 13 true 2000 = Ok 3160.
Proof. vm_compute. done. Qed.

Lemma int_of_char_digit c :
  Py.int_of_char (String c "")
  = if Py.is_digit c then Ok (Py.digit_value c) else Raise ValueError.
Proof. destruct c as [[] [] [] [] [] [] [] []]; vm_compute; reflexivity. Qed.

(** X5: when [compute_score] returns and how it fails, for a number of
    tricks from 0 on.  It returns a score exactly when the contract has at
    least two characters and the first one is a decimal digit; on the
    empty string and on a lone digit it raises [IndexError], and when the
    first character is not a digit, as in the passed-out contract [P], it
    raises [ValueError]. *)
Theorem compute_score_defined (contract : string) (will_make : Z) (vul : bool) (year : Z) :
  0 ≤ will_make →
  match contract with
  | "" => Score.compute_score contract will_make vul year = Raise IndexError
  | String c rest =>
      if Py.is_digit c then
        if Py.truthy rest
        then ∃ score, Score.compute_score contract will_make vul year = Ok score
        else Score.compute_score contract will_make vul year = Raise IndexError
      else Score.compute_score contract will_make vul year = Raise ValueError
  end.
Proof.
  intros _. destruct contract as [|c rest]; [reflexivity|].
  unfold Score.compute_score.
  change (Py.item (String c rest) 0) with (Ok (String c "") : result string).
  cbn [mbind result_bind]. rewrite int_of_char_digit.
  destruct (Py.is_digit c); [|reflexivity].
  destruct rest as [|t rest]; [reflexivity|]. cbn [Py.truthy mbind result_bind].
  change (Py.item (String c (String t rest)) 1) with (Ok (String t "") : result string).
  cbn [mbind result_bind].
  destruct (try_except _ _ _) as [double|e] eqn:Hd.
  - cbn [mbind result_bind]. destruct (_ <? _); eauto.
  - destruct rest; discriminate.
Qed.

Lemma compute_score_defined_witness :
  0 ≤ 9 ∧ Score.compute_score "P" 9 false 2000 = Raise ValueError.
Proof.
  split; [lia|]. apply (compute_score_defined "P" 9 false 2000). lia.
Defined.


(* ------------------------------------------------------------------ *)
(** ** Derived look-ups *)
(* ------------------------------------------------------------------ *)

Lemma truthy_spec s : Py.truthy s = true ↔ s ≠ "".
Proof. destruct s; cbn; split; congruence. Qed.

(** X6: [ensure_non_contradiction] does not depend on the order of its
    two arguments; it raises [ContradictionError] exactly when both are
    non-empty and differ, and a value it returns is one of the arguments
    and agrees with every non-empty one. *)
Theorem ensure_non_contradiction_symmetric (value1 value2 : string) :
  ensure_non_contradiction value1 value2 = ensure_non_contradiction value2 value1
  ∧ (ensure_non_contradiction value1 value2 = Raise ContradictionError
     ↔ value1 ≠ "" ∧ value2 ≠ "" ∧ value1 ≠ value2)
  ∧ ∀ value, ensure_non_contradiction value1 value2 = Ok value →
      (value1 = "" ∨ value1 = value) ∧ (value2 = "" ∨ value2 = value)
      ∧ (value = value1 ∨ value = value2).
Proof.
  unfold ensure_non_contradiction, Py.str_eqb.
  destruct value1 as [|a s1], value2 as [|b s2]; cbn [Py.truthy andb negb];
    repeat case_bool_decide; simplify_eq; cbn [negb];
    (split; [done|split; [split; [try done|intros (?&?&?); done]
                         |intros value [= <-]; auto]]).
  all: intros _; repeat split; congruence.
Qed.

(** X7: [normalize_contract] maps the 105 raw contracts of the database
    (level, suit or [NT], nothing or [X] or [XX]) one to one, in order,
    onto the 105 normalized contracts; each of these is a contract that
    [compute_score] reads and is left as it is by a second normalization;
    every spelling of the pass becomes [P]. *)
Theorem normalize_contract_raw_contracts :
  normalize_contract <$> RAW_CONTRACTS = NORMALIZED_CONTRACTS
  ∧ NoDup NORMALIZED_CONTRACTS
  ∧ Forall (λ contract, Score.valid_contract contract = true
                        ∧ normalize_contract contract = contract)
           NORMALIZED_CONTRACTS
  ∧ normalize_contract <$> ["Pass"; "pass"; "PASS"] = ["P"; "P"; "P"].
Proof.
  split; [vm_compute; reflexivity|].
  split; [compute_done|].
  split; [|vm_compute; reflexivity].
  apply Forall_forall. intros contract Hin.
  assert (forallb (λ contract, Score.valid_contract contract
                               && Py.str_eqb (normalize_contract contract) contract)
            NORMALIZED_CONTRACTS = true) as Hall by (vm_compute; reflexivity).
  rewrite forallb_forall in Hall. apply list_elem_of_In, Hall in Hin.
  apply andb_true_iff in Hin as [? ?%bool_decide_eq_true]. done.
Qed.

(** X8: for a declarer among the four seats [find_lead_from_declarer]
    returns the next seat clockwise, from which [validate_play] gets the
    declarer back as [(lead_player - 1) % 4]; the empty string and [P]
    are returned as they are, and any other string raises
    [ValueError]. *)
Theorem find_lead_from_declarer_left_of_declarer (declarer : string) :
  match Py.list_index declarer ORDER with
  | Some seat =>
      ∃ lead lead_player,
        find_lead_from_declarer declarer = Ok lead
        ∧ Py.list_index lead ORDER = Some lead_player
        ∧ Z.of_nat lead_player = (Z.of_nat seat + 1) `mod` 4
        ∧ (Z.of_nat lead_player - 1) `mod` 4 = Z.of_nat seat
  | None =>
      find_lead_from_declarer declarer
      = if Py.str_eqb declarer "" then Ok ""
        else if Py.str_eqb declarer "P" then Ok "P"
        else Raise ValueError
  end.
Proof.
  destruct (Py.list_index declarer ORDER) as [seat|] eqn:Hseat.
  - assert (declarer ∈ ORDER) as Hin.
    { clear -Hseat. unfold ORDER in *. cbn in Hseat.
      repeat case_decide; simplify_eq; set_solver. }
    unfold ORDER in Hin. list_cases Hin; vm_compute in Hseat; simplify_eq;
      do 2 eexists; (split; [vm_compute; reflexivity|]); done.
  - unfold find_lead_from_declarer. rewrite Hseat.
    destruct declarer as [|c s]; [done|]. cbn [Py.truthy negb].
    unfold Py.str_eqb. repeat case_bool_decide; simplify_eq; done.
Qed.

(** X9: [compute_claim] returns -1 or a number of tricks from 0 to 13
    that is the claimed result itself, is not below the tricks the
    declarer has already won and does not ask for more tricks than are
    left to play; the only exception it raises is [ClaimError]; and a
    result that [int] does not read gives -1. *)
Theorem compute_claim_range
    (claimed : pyval) (number_of_tricks_played number_of_declarer_tricks : Z) :
  match compute_claim claimed number_of_tricks_played number_of_declarer_tricks with
  | Ok claim =>
      claim = -1
      ∨ (0 ≤ claim ≤ 13
         ∧ number_of_declarer_tricks ≤ claim
         ∧ claim - number_of_declarer_tricks ≤ 13 - number_of_tricks_played
         ∧ match claimed with
           | PyInt z => claim = z
           | PyStr s => Py.int_of_str s = Some claim
           end)
  | Raise e => e = ClaimError
  end
  ∧ match claimed with
    | PyInt _ => True
    | PyStr s =>
        match Py.int_of_str s with
        | Some _ => True
        | None =>
            compute_claim claimed number_of_tricks_played number_of_declarer_tricks
            = Ok (-1)
        end
    end.
Proof.
  split; [|destruct claimed as [z|s]; [done|];
           unfold compute_claim; by destruct (Py.int_of_str s)].
  unfold compute_claim.
  destruct claimed as [z|s]; cbn [fmap result_fmap try_except mbind result_bind].
  - destruct (Z.ltb_spec z 0), (Z.ltb_spec 13 z); cbn [orb]; auto.
    destruct (Z.ltb_spec z number_of_declarer_tricks),
      (Z.ltb_spec (13 - number_of_tricks_played) (z - number_of_declarer_tricks));
      cbn [orb]; auto.
    all: try (right; repeat split; (lia || done)).
  - destruct (Py.int_of_str s) as [z|]; cbn; [|by left].
    destruct (Z.ltb_spec z 0), (Z.ltb_spec 13 z); cbn [orb]; auto.
    destruct (Z.ltb_spec z number_of_declarer_tricks),
      (Z.ltb_spec (13 - number_of_tricks_played) (z - number_of_declarer_tricks));
      cbn [orb]; auto.
    all: try (right; repeat split; (lia || done)).
Qed.

(** [int] skips the blanks around a literal and nothing else: a result
    wrapped in the separators 28 and 31 does not read as an integer and
    gives -1, one wrapped in a space and a line feed reads as 7. *)
Example compute_claim_separators :
  compute_claim (PyStr (String (ascii_of_nat 28) ("7" +:+ String (ascii_of_nat 31) "")))
    0 0 = Ok (-1)
  ∧ compute_claim (PyStr (" 7" +:+ String (ascii_of_nat 10) "")) 0 0 = Ok 7.
Proof. vm_compute. done. Qed.

(** A claim is kept exactly when it is a trick count that the play so far
    allows. *)
Lemma compute_claim_accepts (claim played won : Z) :
  0 ≤ claim ≤ 13 → won ≤ claim → claim - won ≤ 13 - played →
  compute_claim (PyInt claim) played won = Ok claim.
Proof.
  intros. unfold compute_claim. cbn.
  destruct (Z.ltb_spec claim 0), (Z.ltb_spec 13 claim); try lia. cbn.
  destruct (Z.ltb_spec claim won), (Z.ltb_spec (13 - played) (claim - won)); try lia.
  done.
Qed.

Lemma year_of_match_range m found :
  year_of_match m = Ok (Some found) → START_YEAR ≤ found ≤ END_YEAR.
Proof.
  unfold year_of_match. destruct m as [group|]; [|done].
  destruct (Py.int_of_str group) as [year|]; cbn; [|done].
  destruct (Z.leb_spec START_YEAR year), (Z.leb_spec year END_YEAR); cbn;
    intros [= <-] || intros [=]; lia.
Qed.

Lemma year_of_match_raise m e : year_of_match m = Raise e → e = ValueError.
Proof.
  unfold year_of_match. destruct m as [group|]; [|done].
  destruct (Py.int_of_str group) as [year|]; cbn; [|congruence].
  destruct (_ && _); done.
Qed.

(** X10: [compute_year] returns 0 or a year from 1955 to 2016, and the
    only exception it can raise is the [ValueError] of [int]. *)
Theorem compute_year_range (event date : string) :
  match compute_year event date with
  | Ok year => year = 0 ∨ 1955 ≤ year ≤ 2016
  | Raise e => e = ValueError
  end.
Proof.
  unfold compute_year. cbn [fst snd].
  destruct (year_of_match (match_date date)) as [[year|]|e] eqn:Hdate;
    cbn [mbind result_bind].
  - right. by apply year_of_match_range in Hdate.
  - destruct (year_of_match (match_event event)) as [[year|]|e] eqn:Hevent;
      cbn [mbind result_bind].
    + right. by apply year_of_match_range in Hevent.
    + by left.
    + by apply year_of_match_raise in Hevent.
  - by apply year_of_match_raise in Hdate.
Qed.

(** The [ValueError] is reached: the comma is a member of two of the
    character classes, and [int] does not read it. *)
Example compute_year_comma : compute_year "Cup 1,55" "" = Raise ValueError.
Proof. vm_compute. reflexivity. Qed.

(** X11: the date is looked at first.  When the date begins with the
    four digits of a year from 1955 to 2016 followed by a dot,
    [compute_year] returns that year whatever the event name is, also
    when the event name alone would raise. *)
Theorem compute_year_date_first (year : Z) (rest event : string) :
  1955 ≤ year ≤ 2016 →
  compute_year event (year_digits year +:+ "." +:+ rest) = Ok year.
Proof.
  intros Hyear.
  assert (year ∈ (λ n, 1955 + Z.of_nat n) <$> seq 0 62) as Hin.
  { apply list_elem_of_fmap. exists (Z.to_nat (year - 1955)). split; [lia|].
    apply elem_of_seq. lia. }
  cbn [seq fmap list_fmap] in Hin.
  list_cases Hin; vm_compute; reflexivity.
Qed.

Lemma compute_year_date_first_witness :
  1955 ≤ 1982 ≤ 2016 ∧
  compute_year "Cup 1,55" (year_digits 1982 +:+ "." +:+ "05.17") = Ok 1982.
Proof. split; [lia|]. apply (compute_year_date_first 1982 "05.17" "Cup 1,55"). lia. Defined.
